(** * SmartIR fan platform: state resolution and command dispatch

    A shallow embedding of [custom_components/smartir/fan.py].  The entity
    object, the controller, the logger and the host's state machine are
    threaded explicitly through a small state-and-exception monad; Python
    exceptions are values of [exn].  The coroutines are modelled one at a
    time, each run to its end: [_temp_lock] serialises the sends, and the
    interleaving of coroutines at their [await] points is outside the
    model. *)

From Stdlib Require Import ZArith Lia.
From stdpp Require Import base option list strings pretty gmap.

Open Scope string_scope.
Open Scope list_scope.

(** ** Python values used by the platform *)

(** The device file is parsed with [json.loads]; command payloads are
    arbitrary JSON values handed to the controller unchanged. *)
#[warnings="-register-all"]
Inductive json : Type :=
| JNull
| JBool (b : bool)
| JNum (n : Z)
| JStr (s : string)
| JArr (l : list json)
| JObj (m : gmap string json).

Inductive exn : Type :=
| KeyError
| TypeError
| AttributeError
| ValueError
| IndexError
| ControllerError (reason : string).

Inductive result (A : Type) : Type :=
| Ok (a : A)
| Raise (e : exn).
Arguments Ok {A} a.
Arguments Raise {A} e.

(** Constants of the module and of [homeassistant.const] /
    [homeassistant.components.fan]. *)
Definition SPEED_OFF : string := "off".
Definition STATE_OFF : string := "off".
Definition STATE_ON : string := "on".
Definition DIRECTION_REVERSE : string := "reverse".
Definition DIRECTION_FORWARD : string := "forward".

Module FanEntityFeature.
Definition SET_SPEED : Z := 1.
Definition OSCILLATE : Z := 2.
Definition DIRECTION : Z := 4.
Definition PRESET_MODE : Z := 8.
Definition TURN_OFF : Z := 16.
Definition TURN_ON : Z := 32.
End FanEntityFeature.

(** Truthiness of the values that the code tests or combines with [or]. *)
Definition truthy_str (o : option string) : bool :=
  match o with
  | Some s => negb (String.eqb s "")
  | None => false
  end.

Definition truthy_bool (o : option bool) : bool :=
  match o with
  | Some b => b
  | None => false
  end.

(** [a or b] where [a] is a string or [None]. *)
Definition py_or (a : option string) (b : string) : string :=
  match a with
  | Some s => if String.eqb s "" then b else s
  | None => b
  end.

(** [a == b] on values that are a string or [None]. *)
Definition py_eq (a b : option string) : bool := bool_decide (a = b).

(** ** The entity and its environment *)

(** The fields of [SmartIRFan] that the state machine reads or writes. *)
Record fan : Type := mk_fan {
  _power_sensor : option string;
  _speed_list : list string;
  _commands : gmap string json;
  _speed : option string;
  _direction : option string;
  _last_on_speed : option string;
  _oscillating : option bool;
  _attr_supported_features : Z;
  _on_by_remote : bool
}.

(** The observable environment: payloads handed to [controller.send],
    exceptions given to [_LOGGER.exception], the states pushed with
    [async_write_ha_state], and the entities tracked with
    [async_track_state_change_event]. *)
Record world : Type := mk_world {
  self : fan;
  transport_calls : list json;
  logged : list exn;
  written_states : list string;
  tracked : list string
}.

Definition set_speed (v : option string) (f : fan) : fan :=
  mk_fan (_power_sensor f) (_speed_list f) (_commands f) v (_direction f)
         (_last_on_speed f) (_oscillating f) (_attr_supported_features f)
         (_on_by_remote f).

Definition set_direction (v : option string) (f : fan) : fan :=
  mk_fan (_power_sensor f) (_speed_list f) (_commands f) (_speed f) v
         (_last_on_speed f) (_oscillating f) (_attr_supported_features f)
         (_on_by_remote f).

Definition set_last_on_speed (v : option string) (f : fan) : fan :=
  mk_fan (_power_sensor f) (_speed_list f) (_commands f) (_speed f)
         (_direction f) v (_oscillating f) (_attr_supported_features f)
         (_on_by_remote f).

Definition set_oscillating (v : option bool) (f : fan) : fan :=
  mk_fan (_power_sensor f) (_speed_list f) (_commands f) (_speed f)
         (_direction f) (_last_on_speed f) v (_attr_supported_features f)
         (_on_by_remote f).

Definition set_on_by_remote (v : bool) (f : fan) : fan :=
  mk_fan (_power_sensor f) (_speed_list f) (_commands f) (_speed f)
         (_direction f) (_last_on_speed f) (_oscillating f)
         (_attr_supported_features f) v.

Definition with_self (g : fan -> fan) (w : world) : world :=
  mk_world (g (self w)) (transport_calls w) (logged w) (written_states w)
           (tracked w).

Definition add_call (command : json) (w : world) : world :=
  mk_world (self w) (transport_calls w ++ [command]) (logged w)
           (written_states w) (tracked w).

Definition add_log (e : exn) (w : world) : world :=
  mk_world (self w) (transport_calls w) (logged w ++ [e]) (written_states w)
           (tracked w).

Definition add_written (s : string) (w : world) : world :=
  mk_world (self w) (transport_calls w) (logged w) (written_states w ++ [s])
           (tracked w).

Definition add_tracked (entity : string) (w : world) : world :=
  mk_world (self w) (transport_calls w) (logged w) (written_states w)
           (tracked w ++ [entity]).

Arguments with_self g w /.

(** ** The effect monad: state passing with exceptions *)

Definition M (A : Type) : Type := world -> result A * world.

Definition ret {A} (a : A) : M A := fun w => (Ok a, w).

Definition bind {A B} (m : M A) (k : A -> M B) : M B :=
  fun w =>
    match m w with
    | (Ok a, w') => k a w'
    | (Raise e, w') => (Raise e, w')
    end.

Definition raise {A} (e : exn) : M A := fun w => (Raise e, w).

Definition get_self : M fan := fun w => (Ok (self w), w).

Definition update_self (g : fan -> fan) : M unit :=
  fun w => (Ok tt, with_self g w).

(** [try: m except Exception as e: h e] *)
Definition try_except {A} (m : M A) (h : exn -> M A) : M A :=
  fun w =>
    match m w with
    | (Ok a, w') => (Ok a, w')
    | (Raise e, w') => h e w'
    end.

#[global] Instance M_ret : MRet M := @ret.
#[global] Instance M_bind : MBind M := fun A B k m => bind m k.

(** Pure computations that may raise. *)
#[global] Instance result_ret : MRet result := @Ok.
#[global] Instance result_bind : MBind result :=
  fun A B k r =>
    match r with
    | Ok a => k a
    | Raise e => Raise e
    end.

(** A pure computation that may raise, run inside [M]. *)
Definition lift {A} (r : result A) : M A := fun w => (r, w).

(** ** Subscripting *)

(** [d[k]] on the top-level command dictionary. *)
Definition getitem (d : gmap string json) (k : string) : result json :=
  match d !! k with
  | Some v => Ok v
  | None => Raise KeyError
  end.

(** [v[k]] where [v] is a parsed JSON value and [k] a string or [None].
    Only a dictionary accepts such a key; its keys are all strings, so
    [None] is never found. *)
Definition subscript (v : json) (k : option string) : result json :=
  match v with
  | JObj m =>
      match k with
      | Some s => getitem m s
      | None => Raise KeyError
      end
  | _ => Raise TypeError
  end.

(** [l[0]] on a Python list. *)
Definition list_getitem0 (l : list string) : result string :=
  match l with
  | x :: _ => Ok x
  | [] => Raise IndexError
  end.

(** ** Percentage helpers *)

(** [ordered_list.index(item)]: position of the first occurrence. *)
Fixpoint index (item : string) (ordered_list : list string) : option nat :=
  match ordered_list with
  | [] => None
  | x :: rest =>
      if String.eqb x item then Some 0%nat
      else
        match index item rest with
        | Some i => Some (S i)
        | None => None
        end
  end.

(** Modelled from the spec: [ordered_list_item_to_percentage] is imported
    from [homeassistant.util.percentage], which is not part of the
    repository.  The spec partitions [0,100] into [len(speedList)] equal
    buckets; the percentage of the item at 1-based position [k] is the upper
    end of bucket [k], [(k * 100) // len].  An item that is not in the list
    is a [ValueError]. *)
Definition ordered_list_item_to_percentage
    (ordered_list : list string) (item : string) : result Z :=
  match index item ordered_list with
  | None => Raise ValueError
  | Some i =>
      let list_len := Z.of_nat (length ordered_list) in
      let list_position := (Z.of_nat i + 1)%Z in
      Ok ((list_position * 100) / list_len)%Z
  end.

(** The loop of [percentage_to_ordered_list_item]: the first entry, counted
    from [offset], whose bucket's upper end reaches [percentage]. *)
Fixpoint first_bucket (list_len percentage offset : Z) (l : list string)
    : option string :=
  match l with
  | [] => None
  | speed :: rest =>
      let list_position := (offset + 1)%Z in
      let upper_bound := ((list_position * 100) / list_len)%Z in
      if (percentage <=? upper_bound)%Z then Some speed
      else first_bucket list_len percentage (offset + 1)%Z rest
  end.

(** Modelled from the spec: [percentage_to_ordered_list_item] is imported
    from [homeassistant.util.percentage], which is not part of the
    repository.  The spec partitions [0,100] into [len(speedList)] equal
    buckets and picks the bucket index: the first entry whose upper bound
    [(position * 100) // len] is at least the percentage, the last entry
    when there is none.  An empty list is a [ValueError]. *)
Definition percentage_to_ordered_list_item
    (ordered_list : list string) (percentage : Z) : result string :=
  match ordered_list with
  | [] => Raise ValueError
  | _ :: _ =>
      let list_len := Z.of_nat (length ordered_list) in
      match first_bucket list_len percentage 0%Z ordered_list with
      | Some speed => Ok speed
      | None =>
          match last ordered_list with
          | Some speed => Ok speed
          | None => Raise IndexError
          end
      end
  end.

(** ** Sensor events *)

Module State.
(** A [homeassistant.core.State]; only its [state] string is read. *)
Record t : Type := mk { state : string }.
End State.

(** [event.data] of a state-change event. *)
Record Event : Type := mk_Event {
  entity_id : string;
  old_state : option State.t;
  new_state : option State.t
}.

(** ** The state machine *)

Section Fan.

(** The controller: given the payloads sent so far and the next payload,
    either completes ([None]) or raises. *)
Variable controller : list json -> json -> option exn.

Definition controller_send (command : json) : M unit :=
  fun w =>
    match controller (transport_calls w) command with
    | None => (Ok tt, add_call command w)
    | Some e => (Raise e, add_call command w)
    end.

Definition log_exception (e : exn) : M unit :=
  fun w => (Ok tt, add_log e w).

(** The [state] property. *)
Definition state (f : fan) : string :=
  if _on_by_remote f || negb (py_eq (_speed f) (Some SPEED_OFF))
  then STATE_ON
  else SPEED_OFF.

Definition async_write_ha_state : M unit :=
  fun w => (Ok tt, add_written (state (self w)) w).

Definition send_command : M unit :=
  update_self (set_on_by_remote false) ;;
  f ← get_self;
  let speed := _speed f in
  let direction := py_or (_direction f) "default" in
  let oscillating := _oscillating f in
  command ← lift (if py_eq speed (Some SPEED_OFF) then
                    getitem (_commands f) "off"
                  else if truthy_bool oscillating then
                    getitem (_commands f) "oscillate"
                  else
                    t ← getitem (_commands f) direction;
                    subscript t speed);
  try_except (controller_send command) log_exception.

Definition async_set_percentage (percentage : Z) : M unit :=
  (if (percentage =? 0)%Z then
     update_self (set_speed (Some SPEED_OFF))
   else
     f ← get_self;
     item ← lift (percentage_to_ordered_list_item (_speed_list f) percentage);
     update_self (set_speed (Some item))) ;;
  f ← get_self;
  (if negb (py_eq (_speed f) (Some SPEED_OFF)) then
     update_self (set_last_on_speed (_speed f))
   else ret tt) ;;
  send_command ;;
  async_write_ha_state.

Definition async_oscillate (oscillating : bool) : M unit :=
  update_self (set_oscillating (Some oscillating)) ;;
  send_command ;;
  async_write_ha_state.

Definition async_set_direction (direction : string) : M unit :=
  update_self (set_direction (Some direction)) ;;
  f ← get_self;
  (if negb (py_eq (_speed f) (Some SPEED_OFF)) then send_command
   else ret tt) ;;
  async_write_ha_state.

Definition async_turn_on (percentage : option Z) : M unit :=
  percentage ← match percentage with
               | None =>
                   f ← get_self;
                   item ← lift (if truthy_str (_last_on_speed f)
                                then Ok (default "" (_last_on_speed f))
                                else list_getitem0 (_speed_list f));
                   lift (ordered_list_item_to_percentage (_speed_list f) item)
               | Some p => ret p
               end;
  async_set_percentage percentage.

Definition async_turn_off : M unit :=
  async_set_percentage 0%Z.

Definition _async_power_sensor_changed (event : Event) : M unit :=
  match new_state event with
  | None => ret tt
  | Some new_state =>
      old_value ← match old_state event with
                  | Some old_state => ret (State.state old_state)
                  | None => raise AttributeError
                  end;
      if String.eqb (State.state new_state) old_value then ret tt
      else
        f ← get_self;
        (if String.eqb (State.state new_state) STATE_ON
            && py_eq (_speed f) (Some SPEED_OFF)
         then
           update_self (set_on_by_remote true) ;;
           update_self (set_speed None) ;;
           async_write_ha_state
         else ret tt) ;;
        if String.eqb (State.state new_state) STATE_OFF then
          update_self (set_on_by_remote false) ;;
          f ← get_self;
          (if negb (py_eq (_speed f) (Some SPEED_OFF)) then
             update_self (set_speed (Some SPEED_OFF))
           else ret tt) ;;
          async_write_ha_state
        else ret tt
  end.

End Fan.

(** ** Construction and startup *)

(** [key in d] *)
Definition contains (d : gmap string json) (key : string) : bool :=
  bool_decide (is_Some (d !! key)).

(** [SmartIRFan.__init__], from the configured power sensor and the
    [speed] and [commands] entries of the device file. *)
Definition __init__ (power_sensor : option string) (speed : list string)
    (commands : gmap string json) : fan :=
  let features0 :=
    Z.lor (Z.lor FanEntityFeature.SET_SPEED FanEntityFeature.TURN_OFF)
          FanEntityFeature.TURN_ON in
  let has_direction :=
    contains commands DIRECTION_REVERSE && contains commands DIRECTION_FORWARD in
  let direction := if has_direction then Some DIRECTION_REVERSE else None in
  let features1 :=
    if has_direction then Z.lor features0 FanEntityFeature.DIRECTION
    else features0 in
  let has_oscillate := contains commands "oscillate" in
  let oscillating := if has_oscillate then Some false else None in
  let features2 :=
    if has_oscillate then Z.lor features1 FanEntityFeature.OSCILLATE
    else features1 in
  mk_fan power_sensor speed commands (Some SPEED_OFF) direction None
         oscillating features2 false.

Definition new_world (f : fan) : world := mk_world f [] [] [] [].

Definition async_track_state_change_event (entity : string) : M unit :=
  fun w => (Ok tt, add_tracked entity w).

(** [async_added_to_hass]; [last_state] is what [async_get_last_state]
    returned, reduced to its attributes (each a string or [None]). *)
Definition async_added_to_hass
    (last_state : option (gmap string (option string))) : M unit :=
  match last_state with
  | Some attributes =>
      match attributes !! "speed" with
      | Some v => update_self (set_speed v)
      | None => ret tt
      end ;;
      f ← get_self;
      match attributes !! "direction" with
      | Some v =>
          if negb (Z.land (_attr_supported_features f)
                          FanEntityFeature.DIRECTION =? 0)%Z
          then update_self (set_direction v)
          else ret tt
      | None => ret tt
      end ;;
      match attributes !! "last_on_speed" with
      | Some v => update_self (set_last_on_speed v)
      | None => ret tt
      end ;;
      f ← get_self;
      if truthy_str (_power_sensor f) then
        async_track_state_change_event (default "" (_power_sensor f))
      else ret tt
  | None => ret tt
  end.

(** ** A sample device *)

(** A three-speed fan with both directions and an oscillate code. *)
Definition sample_speeds : list string := ["low"; "medium"; "high"].

Definition sample_commands : gmap string json :=
  <["off" := JStr "OFF"]>
  (<["oscillate" := JStr "OSC"]>
  (<["forward" := JObj (<["low" := JStr "F1"]>
                       (<["medium" := JStr "F2"]>
                       (<["high" := JStr "F3"]> ∅)))]>
  (<["reverse" := JObj (<["low" := JStr "R1"]>
                       (<["medium" := JStr "R2"]>
                       (<["high" := JStr "R3"]> ∅)))]> ∅))).

Definition sample_fan : fan :=
  __init__ (Some "binary_sensor.fan_power") sample_speeds sample_commands.

(** A controller that always completes, and one that always fails. *)
Definition reliable : list json -> json -> option exn := fun _ _ => None.
Definition broken : list json -> json -> option exn :=
  fun _ _ => Some (ControllerError "timeout").

(** ** Derived notions used in the statements *)

(** The command expression of [send_command], read off the entity. *)
Definition selected_command (f : fan) : result json :=
  if py_eq (_speed f) (Some SPEED_OFF) then getitem (_commands f) "off"
  else if truthy_bool (_oscillating f) then getitem (_commands f) "oscillate"
  else
    t ← getitem (_commands f) (py_or (_direction f) "default");
    subscript t (_speed f).

(** [m] hands exactly one payload, [command], to the controller. *)
Definition sends (m : M unit) (w : world) (command : json) : Prop :=
  transport_calls (m w).2 = transport_calls w ++ [command].

(** [m] does not call the controller. *)
Definition silent (m : M unit) (w : world) : Prop :=
  transport_calls (m w).2 = transport_calls w.

(** The sample fan at a given speed, oscillation flag and direction. *)
Definition sample_at (speed : option string) (oscillating : option bool)
    (direction : option string) : world :=
  new_world (set_speed speed (set_oscillating oscillating
              (set_direction direction sample_fan))).

(** The common tail of the operations: dispatch, then push the state. *)
Definition dispatch_and_write (controller : list json -> json -> option exn)
    : M unit :=
  send_command controller ;; async_write_ha_state.

(** The sample fan after the power sensor reported ON while it was off:
    switched on by the remote, speed without a known level. *)
Definition sample_on_by_remote : world :=
  (_async_power_sensor_changed
     (mk_Event "binary_sensor.fan_power"
        (Some (State.mk "off")) (Some (State.mk "on")))
     (new_world sample_fan)).2.

(** A device file that declares 101 speed levels. *)
Definition many_speeds : list string :=
  (fun n => "speed" +:+ pretty n) <$> seq 1 101.

Definition many_speeds_fan : fan := __init__ None many_speeds sample_commands.

(** Everything that can happen to a running entity: the five user
    operations and a notification from the power sensor. *)
Inductive operation : Type :=
| SetPercentage (percentage : Z)
| Oscillate (oscillating : bool)
| SetDirection (direction : string)
| TurnOn (percentage : option Z)
| TurnOff
| SensorChanged (event : Event).

Definition perform (controller : list json -> json -> option exn)
    (op : operation) : M unit :=
  match op with
  | SetPercentage p => async_set_percentage controller p
  | Oscillate b => async_oscillate controller b
  | SetDirection d => async_set_direction controller d
  | TurnOn p => async_turn_on controller p
  | TurnOff => async_turn_off controller
  | SensorChanged ev => _async_power_sensor_changed ev
  end.

(** The world after an operation has run to its end, normally or not. *)
Definition after (controller : list json -> json -> option exn)
    (op : operation) (w : world) : world :=
  (perform controller op w).2.

(** The speed is a known level other than off. *)
Definition known_level (f : fan) : Prop :=
  exists L, _speed f = Some L /\ L <> SPEED_OFF.

(** "On because of the remote" and "on at a known level" never hold
    together. *)
Definition attribution_invariant (f : fan) : Prop :=
  ~ (_on_by_remote f = true /\ known_level f).

(** The world after a sequence of operations, one after the other. *)
Definition after_all (controller : list json -> json -> option exn)
    (ops : list operation) (w : world) : world :=
  foldl (fun w op => after controller op w) w ops.

(** ** Further properties of the entity *)

(** The [percentage] property.  The speed may be [None] there, and a list of
    strings never contains [None], so the lookup of its position fails. *)
Definition percentage (f : fan) : result Z :=
  if py_eq (_speed f) (Some SPEED_OFF) then Ok 0%Z
  else
    match _speed f with
    | Some item => ordered_list_item_to_percentage (_speed_list f) item
    | None => Raise ValueError
    end.

(** The speed is off, without a level, or a declared level. *)
Definition speed_in_domain (f : fan) : Prop :=
  _speed f = None \/ _speed f = Some SPEED_OFF \/
  exists L, _speed f = Some L /\ L ∈ _speed_list f.

(** The last on-speed is absent or a declared level other than off. *)
Definition last_on_speed_in_domain (f : fan) : Prop :=
  _last_on_speed f = None \/
  exists L, _last_on_speed f = Some L /\ L ∈ _speed_list f /\ L <> SPEED_OFF.

(** The configuration part of the entity, which no operation writes. *)
Definition configuration (f : fan)
    : option string * list string * gmap string json * Z :=
  (_power_sensor f, _speed_list f, _commands f, _attr_supported_features f).

(** A device file without direction tables and without an oscillate code:
    one "default" table. *)
Definition plain_commands : gmap string json :=
  <["off" := JStr "OFF"]>
  (<["default" := JObj (<["low" := JStr "D1"]>
                       (<["high" := JStr "D2"]> ∅))]> ∅).

Definition plain_fan : fan := __init__ None ["low"; "high"] plain_commands.

(** How one operation may move the entity from [f] to [f']: the
    configuration stays, the speed stays or becomes unknown, off or a
    declared level, and the last on-speed stays or becomes a declared level
    other than off. *)
Definition moves_within (f f' : fan) : Prop :=
  configuration f' = configuration f /\
  (_speed f' = _speed f \/ _speed f' = None \/ _speed f' = Some SPEED_OFF \/
   exists L, L ∈ _speed_list f /\ _speed f' = Some L) /\
  (_last_on_speed f' = _last_on_speed f \/
   exists L, L ∈ _speed_list f /\ L <> SPEED_OFF /\
             _last_on_speed f' = Some L).

(** The operations a user of the entity can issue: everything but the
    sensor notification. *)
Definition user_operation (op : operation) : Prop :=
  match op with
  | SensorChanged _ => False
  | _ => True
  end.

(** * Properties *)

(** ** Basic facts *)

Lemma py_eq_true (a b : option string) : py_eq a b = true <-> a = b.
Proof. unfold py_eq. apply bool_decide_eq_true. Qed.

Lemma py_eq_false (a b : option string) : py_eq a b = false <-> a <> b.
Proof. unfold py_eq. apply bool_decide_eq_false. Qed.

Lemma py_eq_refl (a : option string) : py_eq a a = true.
Proof. by apply py_eq_true. Qed.

Lemma truthy_bool_false (o : option bool) :
  o <> Some true -> truthy_bool o = false.
Proof. destruct o as [[]|]; simpl; congruence. Qed.

Ltac run :=
  unfold mbind, M_bind, result_bind, bind, mret, M_ret, result_ret, ret,
    raise, lift, get_self, update_self, try_except, controller_send,
    log_exception, async_write_ha_state in *;
  simpl in *.

(** ** Command resolution inside [send_command] *)

Section Dispatch.

Variable controller : list json -> json -> option exn.

(** What one run of [send_command] does, by the outcome of the lookup and
    of the controller. *)
Lemma send_command_run w :
  send_command controller w =
  let w0 := with_self (set_on_by_remote false) w in
  match selected_command (self w) with
  | Raise e => (Raise e, w0)
  | Ok c =>
      match controller (transport_calls w) c with
      | None => (Ok tt, add_call c w0)
      | Some e => (Ok tt, add_log e (add_call c w0))
      end
  end.
Proof.
  unfold send_command, selected_command. run.
  destruct (py_eq _ _); [|destruct (truthy_bool _)];
    repeat match goal with
           | |- context [getitem ?d ?k] => destruct (getitem d k); simpl
           | |- context [subscript ?d ?k] => destruct (subscript d k); simpl
           | |- context [controller ?h ?c] => destruct (controller h c); simpl
           end; reflexivity.
Qed.

Lemma send_command_sends w c :
  selected_command (self w) = Ok c -> sends (send_command controller) w c.
Proof.
  intros H. unfold sends. rewrite send_command_run, H. simpl.
  by destruct (controller _ _).
Qed.

Lemma send_command_raises w e :
  selected_command (self w) = Raise e ->
  send_command controller w =
    (Raise e, with_self (set_on_by_remote false) w).
Proof. intros H. by rewrite send_command_run, H. Qed.

Lemma selected_off f c :
  _speed f = Some SPEED_OFF -> _commands f !! "off" = Some c ->
  selected_command f = Ok c.
Proof.
  intros Hs Hc. unfold selected_command, getitem.
  by rewrite Hs, py_eq_refl, Hc.
Qed.

Lemma selected_oscillate f c :
  _speed f <> Some SPEED_OFF -> _oscillating f = Some true ->
  _commands f !! "oscillate" = Some c ->
  selected_command f = Ok c.
Proof.
  intros Hs Ho Hc. unfold selected_command, getitem.
  apply py_eq_false in Hs. by rewrite Hs, Ho, Hc.
Qed.

Lemma selected_table f s t c :
  _speed f = Some s -> s <> SPEED_OFF -> _oscillating f <> Some true ->
  _commands f !! py_or (_direction f) "default" = Some (JObj t) ->
  t !! s = Some c ->
  selected_command f = Ok c.
Proof.
  intros Hs Hne Ho Ht Hc. unfold selected_command, getitem.
  assert (py_eq (_speed f) (Some SPEED_OFF) = false) as ->.
  { apply py_eq_false. rewrite Hs. congruence. }
  rewrite (truthy_bool_false _ Ho), Ht, Hs. run. unfold getitem.
  by rewrite Hc.
Qed.

(** C1: the payload handed to the controller follows the precedence
    off > oscillate > directional speed.  With speed off it is
    [commands["off"]], whatever the oscillation flag and the direction;
    otherwise, when oscillating, it is [commands["oscillate"]], whatever the
    speed and the direction; otherwise it is
    [commands[direction or "default"][speed]]. *)
Theorem send_command_precedence w :
  (forall c,
      _speed (self w) = Some SPEED_OFF ->
      _commands (self w) !! "off" = Some c ->
      sends (send_command controller) w c) /\
  (forall c,
      _speed (self w) <> Some SPEED_OFF ->
      _oscillating (self w) = Some true ->
      _commands (self w) !! "oscillate" = Some c ->
      sends (send_command controller) w c) /\
  (forall s t c,
      _speed (self w) = Some s ->
      s <> SPEED_OFF ->
      _oscillating (self w) <> Some true ->
      _commands (self w) !! py_or (_direction (self w)) "default"
        = Some (JObj t) ->
      t !! s = Some c ->
      sends (send_command controller) w c).
Proof.
  repeat split; intros; apply send_command_sends;
    eauto using selected_off, selected_oscillate, selected_table.
Qed.

End Dispatch.

Lemma send_command_precedence_witness :
  sends (send_command reliable)
        (sample_at (Some "off") (Some true) (Some "forward")) (JStr "OFF") /\
  sends (send_command reliable)
        (sample_at (Some "medium") (Some true) (Some "forward")) (JStr "OSC") /\
  sends (send_command reliable)
        (sample_at (Some "medium") (Some false) (Some "forward")) (JStr "F2").
Proof.
  split; [|split].
  - apply (proj1 (send_command_precedence reliable _)); reflexivity.
  - apply (proj1 (proj2 (send_command_precedence reliable _)));
      [discriminate | reflexivity | reflexivity].
  - apply (proj2 (proj2 (send_command_precedence reliable _))
             "medium"
             (<["low" := JStr "F1"]>
              (<["medium" := JStr "F2"]> (<["high" := JStr "F3"]> ∅))));
      [reflexivity | discriminate | discriminate | reflexivity | reflexivity].
Defined.

(** ** The sensor handler *)

Lemma set_speed_same f v : _speed f = v -> set_speed v f = f.
Proof. intros <-. by destruct f. Qed.

Lemma state_on_by_remote f : _on_by_remote f = true -> state f = STATE_ON.
Proof. intros H. unfold state. by rewrite H. Qed.

(** A notification without a new state is dropped. *)
Lemma sensor_unavailable ev w :
  new_state ev = None -> _async_power_sensor_changed ev w = (Ok tt, w).
Proof. intros H. unfold _async_power_sensor_changed. by rewrite H. Qed.

(** A notification whose old state is absent fails on [old_state.state]. *)
Lemma sensor_old_absent ev new w :
  new_state ev = Some new -> old_state ev = None ->
  _async_power_sensor_changed ev w = (Raise AttributeError, w).
Proof. intros H1 H2. unfold _async_power_sensor_changed. by rewrite H1, H2. Qed.

(** A notification that repeats the old value is dropped. *)
Lemma sensor_duplicate ev old new w :
  new_state ev = Some new -> old_state ev = Some old ->
  State.state new = State.state old ->
  _async_power_sensor_changed ev w = (Ok tt, w).
Proof.
  intros H1 H2 H3. unfold _async_power_sensor_changed. rewrite H1, H2. run.
  by rewrite H3, String.eqb_refl.
Qed.

(** ON observed while the speed is off. *)
Lemma sensor_on_while_off ev old new w :
  new_state ev = Some new -> old_state ev = Some old ->
  State.state new = STATE_ON -> State.state old <> STATE_ON ->
  _speed (self w) = Some SPEED_OFF ->
  _async_power_sensor_changed ev w =
    (Ok tt, add_written STATE_ON
              (with_self (set_speed None)
                 (with_self (set_on_by_remote true) w))).
Proof.
  intros H1 H2 H3 H4 H5. unfold _async_power_sensor_changed.
  rewrite H1, H2. run. rewrite H3.
  assert (String.eqb STATE_ON (State.state old) = false) as ->.
  { apply String.eqb_neq. congruence. }
  by rewrite H5.
Qed.

(** ON observed while the speed is not off: nothing changes. *)
Lemma sensor_on_while_running ev old new w :
  new_state ev = Some new -> old_state ev = Some old ->
  State.state new = STATE_ON -> State.state old <> STATE_ON ->
  _speed (self w) <> Some SPEED_OFF ->
  _async_power_sensor_changed ev w = (Ok tt, w).
Proof.
  intros H1 H2 H3 H4 H5. unfold _async_power_sensor_changed.
  rewrite H1, H2. run. rewrite H3.
  assert (String.eqb STATE_ON (State.state old) = false) as ->.
  { apply String.eqb_neq. congruence. }
  apply py_eq_false in H5. by rewrite H5.
Qed.

(** OFF observed. *)
Lemma sensor_off ev old new w :
  new_state ev = Some new -> old_state ev = Some old ->
  State.state new = STATE_OFF -> State.state old <> STATE_OFF ->
  _async_power_sensor_changed ev w =
    (Ok tt, add_written SPEED_OFF
              (with_self (set_speed (Some SPEED_OFF))
                 (with_self (set_on_by_remote false) w))).
Proof.
  intros H1 H2 H3 H4. unfold _async_power_sensor_changed.
  rewrite H1, H2. run. rewrite H3.
  assert (String.eqb STATE_OFF (State.state old) = false) as ->.
  { apply String.eqb_neq. congruence. }
  simpl. destruct (py_eq (_speed (self w)) (Some SPEED_OFF)) eqn:E; simpl.
  - apply py_eq_true in E. unfold with_self; simpl.
    rewrite (set_speed_same (set_on_by_remote false (self w))) by done.
    unfold state. simpl. by rewrite E.
  - reflexivity.
Qed.

(** Any other new value (neither ON nor OFF, different from the old one)
    changes nothing. *)
Lemma sensor_other ev old new w :
  new_state ev = Some new -> old_state ev = Some old ->
  State.state new <> State.state old ->
  State.state new <> STATE_ON -> State.state new <> STATE_OFF ->
  _async_power_sensor_changed ev w = (Ok tt, w).
Proof.
  intros H1 H2 H3 H4 H5. unfold _async_power_sensor_changed.
  rewrite H1, H2. run.
  apply String.eqb_neq in H3, H4, H5. by rewrite H3, H4, H5.
Qed.

(** C2: from a state whose speed is off, a sensor change to ON marks the fan
    as switched on by the remote, leaves the speed without a known level,
    reports ON and sends nothing; a following change to OFF clears the mark
    and forces the speed to off, again sending nothing. *)
Theorem sensor_reconciliation w eid old1 old2 :
  _speed (self w) = Some SPEED_OFF ->
  State.state old1 <> STATE_ON ->
  State.state old2 <> STATE_OFF ->
  let on_event := mk_Event eid (Some old1) (Some (State.mk STATE_ON)) in
  let off_event := mk_Event eid (Some old2) (Some (State.mk STATE_OFF)) in
  let w1 := (_async_power_sensor_changed on_event w).2 in
  let w2 := (_async_power_sensor_changed off_event w1).2 in
  (_async_power_sensor_changed on_event w).1 = Ok tt /\
  _on_by_remote (self w1) = true /\
  _speed (self w1) = None /\
  state (self w1) = STATE_ON /\
  transport_calls w1 = transport_calls w /\
  (_async_power_sensor_changed off_event w1).1 = Ok tt /\
  _on_by_remote (self w2) = false /\
  _speed (self w2) = Some SPEED_OFF /\
  state (self w2) = SPEED_OFF /\
  transport_calls w2 = transport_calls w.
Proof.
  intros Hs Ho1 Ho2 on_event off_event w1 w2. subst w2 w1.
  rewrite (sensor_on_while_off on_event old1 (State.mk STATE_ON) w)
    by done.
  rewrite (sensor_off off_event old2 (State.mk STATE_OFF)) by done.
  repeat split.
Qed.

Lemma sensor_reconciliation_witness :
  let w := new_world sample_fan in
  let on_event := mk_Event "binary_sensor.fan_power"
                    (Some (State.mk "off")) (Some (State.mk "on")) in
  let off_event := mk_Event "binary_sensor.fan_power"
                     (Some (State.mk "on")) (Some (State.mk "off")) in
  let w1 := (_async_power_sensor_changed on_event w).2 in
  let w2 := (_async_power_sensor_changed off_event w1).2 in
  _on_by_remote (self w1) = true /\ _speed (self w1) = None /\
  transport_calls w1 = [] /\
  _on_by_remote (self w2) = false /\ _speed (self w2) = Some "off" /\
  transport_calls w2 = [].
Proof.
  pose proof (sensor_reconciliation (new_world sample_fan)
                "binary_sensor.fan_power" (State.mk "off") (State.mk "on")
                eq_refl ltac:(discriminate) ltac:(discriminate)) as H.
  simpl in H. destruct H as (_ & H1 & H2 & _ & H3 & _ & H4 & H5 & _ & H6).
  repeat split; assumption.
Defined.

(** ** User operations *)

Section Operations.

Variable controller : list json -> json -> option exn.

Lemma dispatch_and_write_run w :
  dispatch_and_write controller w =
  let w0 := with_self (set_on_by_remote false) w in
  match selected_command (self w) with
  | Raise e => (Raise e, w0)
  | Ok c =>
      match controller (transport_calls w) c with
      | None => (Ok tt, add_written (state (self w0)) (add_call c w0))
      | Some e =>
          (Ok tt, add_written (state (self w0)) (add_log e (add_call c w0)))
      end
  end.
Proof.
  unfold dispatch_and_write. unfold mbind at 1, M_bind, bind.
  rewrite send_command_run. simpl.
  destruct (selected_command _); [|done].
  by destruct (controller _ _).
Qed.

Lemma dispatch_and_write_sends w c :
  selected_command (self w) = Ok c -> sends (dispatch_and_write controller) w c.
Proof.
  intros H. unfold sends. rewrite dispatch_and_write_run, H. simpl.
  by destruct (controller _ _).
Qed.

Lemma dispatch_and_write_self w :
  self (dispatch_and_write controller w).2 = set_on_by_remote false (self w).
Proof.
  rewrite dispatch_and_write_run. simpl.
  destruct (selected_command _); [|done].
  by destruct (controller _ _).
Qed.

Lemma async_set_percentage_zero w :
  async_set_percentage controller 0 w =
  dispatch_and_write controller (with_self (set_speed (Some SPEED_OFF)) w).
Proof. reflexivity. Qed.

Lemma async_set_percentage_level w p L :
  p <> 0%Z ->
  percentage_to_ordered_list_item (_speed_list (self w)) p = Ok L ->
  L <> SPEED_OFF ->
  async_set_percentage controller p w =
  dispatch_and_write controller
    (with_self (set_last_on_speed (Some L))
       (with_self (set_speed (Some L)) w)).
Proof.
  intros Hp HL Hoff. unfold async_set_percentage.
  apply Z.eqb_neq in Hp. rewrite Hp. run. rewrite HL. cbn.
  assert (py_eq (Some L) (Some SPEED_OFF) = false) as ->.
  { apply py_eq_false. congruence. }
  reflexivity.
Qed.

Lemma async_set_percentage_invalid w p e :
  p <> 0%Z ->
  percentage_to_ordered_list_item (_speed_list (self w)) p = Raise e ->
  async_set_percentage controller p w = (Raise e, w).
Proof.
  intros Hp HL. unfold async_set_percentage.
  apply Z.eqb_neq in Hp. rewrite Hp. run. by rewrite HL.
Qed.

Lemma async_oscillate_run w b :
  async_oscillate controller b w =
  dispatch_and_write controller (with_self (set_oscillating (Some b)) w).
Proof. reflexivity. Qed.

Lemma async_set_direction_off w d :
  _speed (self w) = Some SPEED_OFF ->
  async_set_direction controller d w =
  (Ok tt, add_written (state (set_direction (Some d) (self w)))
            (with_self (set_direction (Some d)) w)).
Proof.
  intros H. unfold async_set_direction. run. by rewrite H.
Qed.

Lemma async_set_direction_running w d :
  _speed (self w) <> Some SPEED_OFF ->
  async_set_direction controller d w =
  dispatch_and_write controller (with_self (set_direction (Some d)) w).
Proof.
  intros H. apply py_eq_false in H.
  unfold async_set_direction, dispatch_and_write. run. by rewrite H.
Qed.

(** C3: [async_set_percentage 0] sets the speed to off and hands the
    off-command to the controller, whatever the oscillation flag and the
    direction are, and [async_turn_off] is the same computation. *)
Theorem set_percentage_zero_is_off w c :
  _commands (self w) !! "off" = Some c ->
  (async_set_percentage controller 0 w).1 = Ok tt /\
  _speed (self (async_set_percentage controller 0 w).2) = Some SPEED_OFF /\
  sends (async_set_percentage controller 0) w c /\
  async_turn_off controller w = async_set_percentage controller 0 w.
Proof.
  intros Hc.
  assert (selected_command (self (with_self (set_speed (Some SPEED_OFF)) w))
          = Ok c) as Hsel by (by apply selected_off).
  repeat split.
  - rewrite async_set_percentage_zero, dispatch_and_write_run, Hsel. simpl.
    by destruct (controller _ _).
  - by rewrite async_set_percentage_zero, dispatch_and_write_self.
  - unfold sends. rewrite async_set_percentage_zero.
    exact (dispatch_and_write_sends _ c Hsel).
Qed.

End Operations.

Lemma set_percentage_zero_is_off_witness :
  let w := sample_at (Some "high") (Some true) (Some "forward") in
  _speed (self (async_set_percentage reliable 0 w).2) = Some "off" /\
  transport_calls (async_set_percentage reliable 0 w).2 = [JStr "OFF"] /\
  async_turn_off reliable w = async_set_percentage reliable 0 w.
Proof.
  pose proof (set_percentage_zero_is_off reliable
                (sample_at (Some "high") (Some true) (Some "forward"))
                (JStr "OFF") eq_refl) as (_ & H1 & H2 & H3).
  repeat split; assumption.
Defined.

Section Direction.

Variable controller : list json -> json -> option exn.

Lemma async_set_direction_records w d :
  _direction (self (async_set_direction controller d w).2) = Some d.
Proof.
  destruct (decide (_speed (self w) = Some SPEED_OFF)) as [E|E].
  - by rewrite async_set_direction_off.
  - by rewrite async_set_direction_running, dispatch_and_write_self.
Qed.

(** C4, as the code has it: [async_set_direction d] always records [d];
    with the speed off it completes without calling the controller, so the
    controller is called only when the speed is not off; with a known
    speed level other than off, no oscillation and a table entry
    [commands[d or "default"][speed]], it calls the controller exactly once
    with that entry. *)
Theorem set_direction_dispatch w d :
  _direction (self (async_set_direction controller d w).2) = Some d /\
  (_speed (self w) = Some SPEED_OFF ->
     (async_set_direction controller d w).1 = Ok tt /\
     silent (async_set_direction controller d) w) /\
  (~ silent (async_set_direction controller d) w ->
     _speed (self w) <> Some SPEED_OFF) /\
  (forall s t c,
      _speed (self w) = Some s ->
      s <> SPEED_OFF ->
      _oscillating (self w) <> Some true ->
      _commands (self w) !! py_or (Some d) "default" = Some (JObj t) ->
      t !! s = Some c ->
      sends (async_set_direction controller d) w c).
Proof.
  split; [apply async_set_direction_records|].
  split; [|split].
  - intros E. unfold silent. by rewrite async_set_direction_off.
  - intros Hn E. apply Hn. unfold silent.
    by rewrite async_set_direction_off.
  - intros s t c Hs Hne Ho Ht Hc. unfold sends.
    rewrite async_set_direction_running by (rewrite Hs; congruence).
    exact (dispatch_and_write_sends controller
             (with_self (set_direction (Some d)) w) c
             (selected_table
                (self (with_self (set_direction (Some d)) w))
                s t c Hs Hne Ho Ht Hc)).
Qed.

End Direction.

Lemma set_direction_dispatch_witness :
  let w_off := sample_at (Some "off") (Some false) (Some "reverse") in
  let w_low := sample_at (Some "low") (Some false) (Some "reverse") in
  silent (async_set_direction reliable "forward") w_off /\
  sends (async_set_direction reliable "forward") w_low (JStr "F1").
Proof.
  split.
  - apply (proj1 (proj2 (set_direction_dispatch reliable _ "forward"))).
    reflexivity.
  - apply (proj2 (proj2 (proj2 (set_direction_dispatch reliable _ "forward")))
             "low"
             (<["low" := JStr "F1"]>
              (<["medium" := JStr "F2"]> (<["high" := JStr "F3"]> ∅))));
      [reflexivity | discriminate | discriminate | reflexivity | reflexivity].
Defined.

(** After the sensor reported ON the speed is not off, yet a change of
    direction fails on the table lookup and never reaches the controller. *)
Lemma set_direction_dispatch_counterexample :
  _speed (self sample_on_by_remote) <> Some SPEED_OFF /\
  (async_set_direction reliable "forward" sample_on_by_remote).1
    = Raise KeyError /\
  ~ (exists c, sends (async_set_direction reliable "forward")
                 sample_on_by_remote c).
Proof.
  split; [discriminate|]. split; [reflexivity|].
  intros [c H]. unfold sends in H. vm_compute in H. discriminate.
Qed.

(** ** Percentages of declared speed levels *)

Lemma index_elem (item : string) (l : list string) :
  item ∈ l -> exists i, index item l = Some i.
Proof.
  induction l as [|x l IH]; intros H.
  - by apply elem_of_nil in H.
  - simpl. destruct (String.eqb x item) eqn:E; [by eexists|].
    apply elem_of_cons in H as [->|H].
    + by rewrite String.eqb_refl in E.
    + destruct (IH H) as [i ->]. by eexists.
Qed.

Lemma index_lookup (item : string) (l : list string) (i : nat) :
  index item l = Some i -> l !! i = Some item.
Proof.
  revert i. induction l as [|x l IH]; intros i; simpl; [done|].
  destruct (String.eqb x item) eqn:E.
  - intros [= <-]. apply String.eqb_eq in E. by subst.
  - destruct (index item l) as [j|]; [|done].
    intros [= <-]. simpl. by apply IH.
Qed.

Lemma percentage_of_elem (item : string) (l : list string) :
  item ∈ l -> exists p, ordered_list_item_to_percentage l item = Ok p.
Proof.
  intros H. destruct (index_elem item l H) as [i Hi].
  unfold ordered_list_item_to_percentage. rewrite Hi. by eexists.
Qed.

Section TurnOn.

Variable controller : list json -> json -> option exn.

Lemma async_turn_on_resolved w item p :
  (if truthy_str (_last_on_speed (self w))
   then Ok (default "" (_last_on_speed (self w)))
   else list_getitem0 (_speed_list (self w))) = Ok item ->
  ordered_list_item_to_percentage (_speed_list (self w)) item = Ok p ->
  async_turn_on controller None w = async_set_percentage controller p w.
Proof.
  intros H1 H2. unfold async_turn_on. run. by rewrite H1, H2.
Qed.

(** C5: [async_turn_on] without a percentage is [async_set_percentage] at
    the percentage of [_last_on_speed] when that is known, and at the
    percentage of the first declared speed level otherwise. *)
Theorem turn_on_resume_speed w :
  (forall L,
      _last_on_speed (self w) = Some L -> L <> "" ->
      L ∈ _speed_list (self w) ->
      exists p,
        ordered_list_item_to_percentage (_speed_list (self w)) L = Ok p /\
        async_turn_on controller None w
          = async_set_percentage controller p w) /\
  (forall L0 rest,
      _last_on_speed (self w) = None ->
      _speed_list (self w) = L0 :: rest ->
      exists p,
        ordered_list_item_to_percentage (_speed_list (self w)) L0 = Ok p /\
        async_turn_on controller None w
          = async_set_percentage controller p w).
Proof.
  split.
  - intros L HL Hne Hin.
    destruct (percentage_of_elem L _ Hin) as [p Hp].
    exists p. split; [done|].
    apply (async_turn_on_resolved w L p); [|done].
    rewrite HL. simpl. apply String.eqb_neq in Hne. by rewrite Hne.
  - intros L0 rest HL Hl.
    assert (L0 ∈ _speed_list (self w)) as Hin
      by (rewrite Hl; set_solver).
    destruct (percentage_of_elem L0 _ Hin) as [p Hp].
    exists p. split; [done|].
    apply (async_turn_on_resolved w L0 p); [|done].
    by rewrite HL, Hl.
Qed.

End TurnOn.

Lemma turn_on_resume_speed_witness :
  let w_known := new_world (set_last_on_speed (Some "high") sample_fan) in
  let w_fresh := new_world sample_fan in
  (exists p,
      ordered_list_item_to_percentage sample_speeds "high" = Ok p /\
      async_turn_on reliable None w_known
        = async_set_percentage reliable p w_known) /\
  (exists p,
      ordered_list_item_to_percentage sample_speeds "low" = Ok p /\
      async_turn_on reliable None w_fresh
        = async_set_percentage reliable p w_fresh).
Proof.
  split.
  - apply (proj1 (turn_on_resume_speed reliable
                    (new_world (set_last_on_speed (Some "high") sample_fan)))
             "high"); [reflexivity | discriminate |].
    simpl. unfold sample_speeds. set_solver.
  - apply (proj2 (turn_on_resume_speed reliable (new_world sample_fan))
             "low" ["medium"; "high"]); reflexivity.
Defined.

(** On the sample fan a bare turn-on resumes at "high" when that was the last
    speed, and starts at "low", the first declared level, otherwise. *)
Example turn_on_resumes_high :
  let w := new_world (set_last_on_speed (Some "high") sample_fan) in
  _speed (self (async_turn_on reliable None w).2) = Some "high" /\
  transport_calls (async_turn_on reliable None w).2 = [JStr "R3"].
Proof. split; reflexivity. Qed.

Example turn_on_starts_low :
  let w := new_world sample_fan in
  _speed (self (async_turn_on reliable None w).2) = Some "low" /\
  transport_calls (async_turn_on reliable None w).2 = [JStr "R1"].
Proof. split; reflexivity. Qed.

(** ** Failures during dispatch *)

Section Failures.

Variable controller : list json -> json -> option exn.

Lemma async_set_percentage_resolved w p L :
  p <> 0%Z ->
  percentage_to_ordered_list_item (_speed_list (self w)) p = Ok L ->
  _speed (self (async_set_percentage controller p w).2) = Some L /\
  _on_by_remote (self (async_set_percentage controller p w).2) = false.
Proof.
  intros Hp HL. destruct (decide (L = SPEED_OFF)) as [E|E].
  - unfold async_set_percentage. apply Z.eqb_neq in Hp. rewrite Hp.
    run. rewrite HL. cbn. subst L. rewrite py_eq_refl. cbn.
    change (_speed (self (dispatch_and_write controller
              (with_self (set_speed (Some SPEED_OFF)) w)).2)
            = Some SPEED_OFF /\
            _on_by_remote (self (dispatch_and_write controller
              (with_self (set_speed (Some SPEED_OFF)) w)).2) = false).
    by rewrite dispatch_and_write_self.
  - rewrite (async_set_percentage_level controller w p L) by done.
    by rewrite dispatch_and_write_self.
Qed.

Lemma async_set_percentage_speed w p L :
  p <> 0%Z ->
  percentage_to_ordered_list_item (_speed_list (self w)) p = Ok L ->
  _speed (self (async_set_percentage controller p w).2) = Some L.
Proof. intros Hp HL. by apply async_set_percentage_resolved. Qed.

(** C7, as the code has it: when the table lookup fails, the controller is
    not called, nothing is logged and the lookup error is raised to the
    caller; when the controller fails, the error is logged, not raised, and
    the controller has been called once; in both cases the fields set by
    the operation keep their new values. *)
Theorem dispatch_failure_semantics w :
  (forall e,
      selected_command (self w) = Raise e ->
      send_command controller w
        = (Raise e, with_self (set_on_by_remote false) w)) /\
  (forall c e,
      selected_command (self w) = Ok c ->
      controller (transport_calls w) c = Some e ->
      send_command controller w
        = (Ok tt, add_log e (add_call c
                    (with_self (set_on_by_remote false) w)))) /\
  self (send_command controller w).2 = set_on_by_remote false (self w) /\
  (forall b,
      _oscillating (self (async_oscillate controller b w).2) = Some b) /\
  (forall d,
      _direction (self (async_set_direction controller d w).2) = Some d) /\
  _speed (self (async_set_percentage controller 0 w).2) = Some SPEED_OFF /\
  (forall p L,
      p <> 0%Z ->
      percentage_to_ordered_list_item (_speed_list (self w)) p = Ok L ->
      _speed (self (async_set_percentage controller p w).2) = Some L).
Proof.
  split; [|split; [|split; [|split; [|split; [|split]]]]].
  - intros e H. by apply send_command_raises.
  - intros c e H1 H2. by rewrite send_command_run, H1, H2.
  - rewrite send_command_run. simpl.
    destruct (selected_command _); [|done]. by destruct (controller _ _).
  - intros b. by rewrite async_oscillate_run, dispatch_and_write_self.
  - intros d. apply async_set_direction_records.
  - by rewrite async_set_percentage_zero, dispatch_and_write_self.
  - apply async_set_percentage_speed.
Qed.

End Failures.

Lemma dispatch_failure_semantics_witness :
  let w_none := with_self (set_oscillating (Some false)) sample_on_by_remote in
  let w_high := sample_at (Some "high") (Some false) (Some "forward") in
  send_command reliable w_none
    = (Raise KeyError, with_self (set_on_by_remote false) w_none) /\
  send_command broken w_high
    = (Ok tt, add_log (ControllerError "timeout")
                (add_call (JStr "F3")
                   (with_self (set_on_by_remote false) w_high))) /\
  _speed (self (async_set_percentage broken 100 w_high).2) = Some "high".
Proof.
  split; [|split].
  - apply (proj1 (dispatch_failure_semantics reliable _)). reflexivity.
  - apply (proj1 (proj2 (dispatch_failure_semantics broken _)));
      reflexivity.
  - apply (proj2 (proj2 (proj2 (proj2 (proj2 (proj2
             (dispatch_failure_semantics broken _)))))));
      [discriminate | reflexivity].
Defined.

(** A failed lookup leaves no trace in the log: after the sensor reported
    ON, switching oscillation off raises [KeyError] and the log is as
    before. *)
Lemma dispatch_failure_semantics_counterexample :
  selected_command
    (self (with_self (set_oscillating (Some false)) sample_on_by_remote))
    = Raise KeyError /\
  (async_oscillate reliable false sample_on_by_remote).1 = Raise KeyError /\
  logged sample_on_by_remote = [] /\
  logged (async_oscillate reliable false sample_on_by_remote).2 = [] /\
  transport_calls (async_oscillate reliable false sample_on_by_remote).2 = [].
Proof. repeat split. Qed.

(** ** Round trip through the percentage mapping *)

Lemma first_bucket_found (l : list string) :
  forall (list_len percentage offset : Z) (i : nat) (L : string),
    index L l = Some i ->
    (forall j : nat, (j < i)%nat ->
       ((offset + Z.of_nat j + 1) * 100 / list_len < percentage)%Z) ->
    (percentage <= (offset + Z.of_nat i + 1) * 100 / list_len)%Z ->
    first_bucket list_len percentage offset l = Some L.
Proof.
  induction l as [|x l IH]; intros n p offset i L Hi Hlt Hle; [done|].
  simpl in *. destruct (String.eqb x L) eqn:E.
  - injection Hi as <-. apply String.eqb_eq in E. subst x.
    replace (offset + Z.of_nat 0 + 1)%Z with (offset + 1)%Z in Hle by lia.
    apply Z.leb_le in Hle. by rewrite Hle.
  - destruct (index L l) as [k|] eqn:Hk; [|done]. injection Hi as <-.
    assert ((p <=? (offset + 1) * 100 / n)%Z = false) as ->.
    { apply Z.leb_gt. specialize (Hlt 0%nat ltac:(lia)).
      by replace (offset + Z.of_nat 0 + 1)%Z with (offset + 1)%Z in Hlt
        by lia. }
    apply (IH n p (offset + 1)%Z k L Hk).
    + intros j Hj. specialize (Hlt (S j) ltac:(lia)).
      by replace (offset + 1 + Z.of_nat j + 1)%Z
        with (offset + Z.of_nat (S j) + 1)%Z by lia.
    + by replace (offset + 1 + Z.of_nat k + 1)%Z
        with (offset + Z.of_nat (S k) + 1)%Z by lia.
Qed.

(** With at most 100 levels the buckets' upper ends are strictly
    increasing. *)
Lemma upper_bound_strict (n : Z) (j i : nat) :
  (0 < n <= 100)%Z -> (j < i)%nat ->
  ((Z.of_nat j + 1) * 100 / n < (Z.of_nat i + 1) * 100 / n)%Z.
Proof.
  intros Hn Hji.
  assert (((Z.of_nat j + 1) * 100 + 1 * n) / n
          <= (Z.of_nat i + 1) * 100 / n)%Z as H.
  { apply Z.div_le_mono; lia. }
  rewrite Z.div_add in H by lia. lia.
Qed.

Lemma upper_bound_positive (n : Z) (i : nat) :
  (0 < n <= 100)%Z -> (0 < (Z.of_nat i + 1) * 100 / n)%Z.
Proof.
  intros Hn.
  assert (1 <= (Z.of_nat i + 1) * 100 / n)%Z; [|lia].
  apply Z.div_le_lower_bound; lia.
Qed.

Lemma index_length (item : string) (l : list string) (i : nat) :
  index item l = Some i -> (i < length l)%nat.
Proof.
  intros H. apply index_lookup in H. by apply lookup_lt_Some in H.
Qed.

(** The percentage of a declared level maps back to that level. *)
Lemma level_percentage_level (l : list string) (L : string) :
  L ∈ l -> (length l <= 100)%nat ->
  exists p,
    ordered_list_item_to_percentage l L = Ok p /\
    p <> 0%Z /\
    percentage_to_ordered_list_item l p = Ok L.
Proof.
  intros Hin Hlen. destruct (index_elem L l Hin) as [i Hi].
  pose proof (index_length _ _ _ Hi) as Hil.
  unfold ordered_list_item_to_percentage. rewrite Hi. eexists.
  split; [reflexivity|].
  assert (0 < Z.of_nat (length l) <= 100)%Z as Hn by lia.
  split; [pose proof (upper_bound_positive _ i Hn); lia|].
  unfold percentage_to_ordered_list_item.
  destruct l as [|x l']; [simpl in Hil; lia|].
  rewrite (first_bucket_found (x :: l') _ _ 0%Z i L Hi); [done| |].
  - intros j Hj. rewrite Z.add_0_l. by apply upper_bound_strict.
  - rewrite Z.add_0_l. lia.
Qed.

Section RoundTrip.

Variable controller : list json -> json -> option exn.

(** C6, for speed lists of at most 100 levels: for every declared level
    [L] other than "off", [async_set_percentage] at the percentage of [L]
    sets the speed to [L], records [L] as the last on-speed and, when not
    oscillating, hands [commands[direction or "default"][L]] to the
    controller. *)
Theorem percentage_round_trip w L :
  L ∈ _speed_list (self w) ->
  L <> SPEED_OFF ->
  (length (_speed_list (self w)) <= 100)%nat ->
  exists p,
    ordered_list_item_to_percentage (_speed_list (self w)) L = Ok p /\
    _speed (self (async_set_percentage controller p w).2) = Some L /\
    _last_on_speed (self (async_set_percentage controller p w).2)
      = Some L /\
    (forall t c,
        _oscillating (self w) <> Some true ->
        _commands (self w) !! py_or (_direction (self w)) "default"
          = Some (JObj t) ->
        t !! L = Some c ->
        sends (async_set_percentage controller p) w c).
Proof.
  intros Hin Hoff Hlen.
  destruct (level_percentage_level _ L Hin Hlen) as (p & Hp & Hp0 & Hb).
  exists p. split; [done|]. unfold sends.
  rewrite (async_set_percentage_level controller w p L) by done.
  rewrite dispatch_and_write_self. repeat split.
  intros t c Ho Ht Hc.
  exact (dispatch_and_write_sends controller
           (with_self (set_last_on_speed (Some L))
              (with_self (set_speed (Some L)) w)) c
           (selected_table
              (self (with_self (set_last_on_speed (Some L))
                       (with_self (set_speed (Some L)) w)))
              L t c eq_refl Hoff Ho Ht Hc)).
Qed.

End RoundTrip.

Lemma percentage_round_trip_witness :
  exists p,
    ordered_list_item_to_percentage sample_speeds "medium" = Ok p /\
    _speed (self (async_set_percentage reliable p (new_world sample_fan)).2)
      = Some "medium" /\
    _last_on_speed
      (self (async_set_percentage reliable p (new_world sample_fan)).2)
      = Some "medium" /\
    sends (async_set_percentage reliable p) (new_world sample_fan)
          (JStr "R2").
Proof.
  destruct (percentage_round_trip reliable (new_world sample_fan) "medium")
    as (p & H1 & H2 & H3 & H4).
  - simpl. unfold sample_speeds. set_solver.
  - discriminate.
  - simpl. lia.
  - exists p. repeat split; try assumption.
    apply (H4 (<["low" := JStr "R1"]>
               (<["medium" := JStr "R2"]> (<["high" := JStr "R3"]> ∅))));
      [discriminate | reflexivity | reflexivity].
Defined.

(** With 101 levels the first level has percentage [100 // 101 = 0], and
    percentage 0 switches the fan off. *)
Lemma percentage_round_trip_counterexample :
  index "speed1" many_speeds = Some 0%nat /\
  ordered_list_item_to_percentage many_speeds "speed1" = Ok 0%Z /\
  _speed (self (async_set_percentage reliable 0
                  (new_world many_speeds_fan)).2) <> Some "speed1".
Proof.
  split; [vm_compute; reflexivity|].
  split; [vm_compute; reflexivity|].
  simpl. discriminate.
Qed.

(** ** The attribution invariant *)

Lemma invariant_not_by_remote f :
  _on_by_remote f = false -> attribution_invariant f.
Proof. intros H [H' _]. congruence. Qed.

Lemma invariant_no_level f :
  ~ known_level f -> attribution_invariant f.
Proof. intros H [_ H']. by apply H. Qed.

Lemma speed_off_no_level f : _speed f = Some SPEED_OFF -> ~ known_level f.
Proof. intros H (L & HL & Hne). congruence. Qed.

Lemma speed_none_no_level f : _speed f = None -> ~ known_level f.
Proof. intros H (L & HL & Hne). congruence. Qed.

Section Invariant.

Variable controller : list json -> json -> option exn.

Lemma async_set_percentage_cases w p :
  (async_set_percentage controller p w).2 = w \/
  _on_by_remote (self (async_set_percentage controller p w).2) = false.
Proof.
  destruct (decide (p = 0%Z)) as [->|Hp].
  - right. by rewrite async_set_percentage_zero, dispatch_and_write_self.
  - destruct (percentage_to_ordered_list_item (_speed_list (self w)) p)
      as [L|e] eqn:E.
    + right. by apply (async_set_percentage_resolved controller w p L).
    + left. by rewrite (async_set_percentage_invalid controller w p e).
Qed.

Lemma async_turn_on_cases w p :
  (async_turn_on controller p w).2 = w \/
  _on_by_remote (self (async_turn_on controller p w).2) = false.
Proof.
  destruct p as [p|]; [apply async_set_percentage_cases|].
  unfold async_turn_on. run.
  destruct (if truthy_str (_last_on_speed (self w))
            then Ok (default "" (_last_on_speed (self w)))
            else list_getitem0 (_speed_list (self w))) as [item|e];
    [|by left].
  destruct (ordered_list_item_to_percentage (_speed_list (self w)) item)
    as [q|e]; [|by left].
  apply async_set_percentage_cases.
Qed.

Lemma sensor_cases ev w :
  (_async_power_sensor_changed ev w).2 = w \/
  _on_by_remote (self (_async_power_sensor_changed ev w).2) = false \/
  _speed (self (_async_power_sensor_changed ev w).2) = None.
Proof.
  destruct (new_state ev) as [new|] eqn:Hn;
    [|left; by rewrite sensor_unavailable].
  destruct (old_state ev) as [old|] eqn:Ho;
    [|left; by rewrite (sensor_old_absent ev new)].
  destruct (decide (State.state new = State.state old)) as [E|E];
    [left; by rewrite (sensor_duplicate ev old new)|].
  destruct (decide (State.state new = STATE_ON)) as [Eon|Eon].
  - destruct (decide (_speed (self w) = Some SPEED_OFF)) as [Es|Es].
    + right; right.
      rewrite (sensor_on_while_off ev old new) by congruence. done.
    + left. rewrite (sensor_on_while_running ev old new) by congruence.
      done.
  - destruct (decide (State.state new = STATE_OFF)) as [Eoff|Eoff].
    + right; left. rewrite (sensor_off ev old new) by congruence. done.
    + left. by rewrite (sensor_other ev old new).
Qed.

Lemma perform_preserves op w :
  attribution_invariant (self w) ->
  attribution_invariant (self (after controller op w)).
Proof.
  intros Hinv. unfold after.
  destruct op as [p|b|d|p| |ev]; simpl.
  - destruct (async_set_percentage_cases w p) as [->|H];
      [done|by apply invariant_not_by_remote].
  - apply invariant_not_by_remote.
    by rewrite async_oscillate_run, dispatch_and_write_self.
  - destruct (decide (_speed (self w) = Some SPEED_OFF)) as [E|E].
    + rewrite async_set_direction_off by done.
      apply invariant_no_level, speed_off_no_level. exact E.
    + apply invariant_not_by_remote.
      by rewrite async_set_direction_running, dispatch_and_write_self.
  - destruct (async_turn_on_cases w p) as [->|H];
      [done|by apply invariant_not_by_remote].
  - destruct (async_set_percentage_cases w 0) as [H|H].
    + unfold async_turn_off. by rewrite H.
    + by apply invariant_not_by_remote.
  - destruct (sensor_cases ev w) as [->|[H|H]]; [done| |].
    + by apply invariant_not_by_remote.
    + by apply invariant_no_level, speed_none_no_level.
Qed.

Lemma async_added_to_hass_by_remote last_state w :
  _on_by_remote (self (async_added_to_hass last_state w).2)
  = _on_by_remote (self w).
Proof.
  unfold async_added_to_hass. destruct last_state as [attrs|]; [|done].
  run.
  destruct (attrs !! "speed"); cbn;
    destruct (attrs !! "direction"); cbn;
    try destruct (negb _); cbn;
    destruct (attrs !! "last_on_speed"); cbn;
    destruct (truthy_str _); reflexivity.
Qed.

Lemma startup_invariant power_sensor speed commands last_state :
  attribution_invariant
    (self (async_added_to_hass last_state
             (new_world (__init__ power_sensor speed commands))).2).
Proof.
  apply invariant_not_by_remote.
  by rewrite async_added_to_hass_by_remote.
Qed.

Lemma after_all_preserves ops w :
  attribution_invariant (self w) ->
  attribution_invariant (self (after_all controller ops w)).
Proof.
  revert w. induction ops as [|op ops IH]; intros w H; [done|].
  simpl. apply IH. by apply perform_preserves.
Qed.

Lemma oscillate_keeps_unknown w b :
  _speed (self w) = None ->
  _speed (self (after controller (Oscillate b) w)) = None.
Proof.
  intros H. unfold after. simpl.
  by rewrite async_oscillate_run, dispatch_and_write_self.
Qed.

Lemma set_direction_keeps_unknown w d :
  _speed (self w) = None ->
  _speed (self (after controller (SetDirection d) w)) = None.
Proof.
  intros H. unfold after. simpl.
  rewrite async_set_direction_running by (rewrite H; discriminate).
  by rewrite dispatch_and_write_self.
Qed.

(** C8: the entity starts in a state where "on by the remote" and "a known
    level other than off" do not hold together, and every operation, run
    to its end, keeps it so, hence every sequence of operations does.  A
    sensor-reported ON while the speed is off leaves the speed without a
    level, and changing oscillation or direction does not give it one;
    [async_set_percentage] at a percentage that maps to a level does. *)
Theorem attribution_invariant_preserved :
  (forall power_sensor speed commands last_state,
      attribution_invariant
        (self (async_added_to_hass last_state
                 (new_world (__init__ power_sensor speed commands))).2)) /\
  (forall op w,
      attribution_invariant (self w) ->
      attribution_invariant (self (after controller op w))) /\
  (forall ops w,
      attribution_invariant (self w) ->
      attribution_invariant (self (after_all controller ops w))) /\
  (forall eid old w,
      _speed (self w) = Some SPEED_OFF ->
      State.state old <> STATE_ON ->
      _speed (self (after controller
                      (SensorChanged
                         (mk_Event eid (Some old)
                            (Some (State.mk STATE_ON)))) w)) = None) /\
  (forall w b,
      _speed (self w) = None ->
      _speed (self (after controller (Oscillate b) w)) = None) /\
  (forall w d,
      _speed (self w) = None ->
      _speed (self (after controller (SetDirection d) w)) = None) /\
  (forall w p L,
      p <> 0%Z ->
      percentage_to_ordered_list_item (_speed_list (self w)) p = Ok L ->
      _speed (self (after controller (SetPercentage p) w)) = Some L /\
      _on_by_remote (self (after controller (SetPercentage p) w)) = false).
Proof.
  split; [apply startup_invariant|].
  split; [apply perform_preserves|].
  split; [apply after_all_preserves|].
  split.
  { intros eid old w Hs Ho. unfold after. simpl.
    by rewrite (sensor_on_while_off _ old (State.mk STATE_ON)). }
  split; [apply oscillate_keeps_unknown|].
  split; [apply set_direction_keeps_unknown|].
  intros w p L Hp HL. unfold after. simpl.
  by apply async_set_percentage_resolved.
Qed.

End Invariant.

Lemma attribution_invariant_preserved_witness :
  let on_event := mk_Event "binary_sensor.fan_power"
                    (Some (State.mk "off")) (Some (State.mk "on")) in
  attribution_invariant (self (new_world sample_fan)) /\
  attribution_invariant
    (self (after_all reliable
             [SensorChanged on_event; SetDirection "forward";
              SetPercentage 50; SensorChanged on_event; TurnOff]
             (new_world sample_fan))).
Proof.
  assert (attribution_invariant (self (new_world sample_fan))) as H.
  { apply invariant_not_by_remote. reflexivity. }
  split; [exact H|].
  apply (proj1 (proj2 (proj2 (attribution_invariant_preserved reliable)))).
  exact H.
Defined.

(** The run used above, step by step: the sensor marks the fan as on by
    the remote, the first explicit percentage clears the mark. *)
Example remote_then_percentage :
  let on_event := mk_Event "binary_sensor.fan_power"
                    (Some (State.mk "off")) (Some (State.mk "on")) in
  let w1 := after reliable (SensorChanged on_event) (new_world sample_fan) in
  let w2 := after reliable (SetPercentage 50) w1 in
  (_on_by_remote (self w1), _speed (self w1)) = (true, None) /\
  (_on_by_remote (self w2), _speed (self w2)) = (false, Some "medium") /\
  transport_calls w2 = [JStr "R2"].
Proof. repeat split. Qed.

(** ** Startup *)

(** With a restored state and a configured sensor, the handler is
    subscribed to that sensor. *)
Lemma async_added_to_hass_restored_tracks attributes sensor w :
  _power_sensor (self w) = Some sensor -> sensor <> "" ->
  tracked (async_added_to_hass (Some attributes) w).2
    = tracked w ++ [sensor].
Proof.
  intros Hs Hne. unfold async_added_to_hass. run.
  apply String.eqb_neq in Hne.
  destruct (attributes !! "speed"); cbn;
    destruct (attributes !! "direction"); cbn;
    try destruct (negb _); cbn;
    destruct (attributes !! "last_on_speed"); cbn;
    rewrite Hs; cbn; rewrite Hne; reflexivity.
Qed.

(** C9: on a start without a restored state [async_added_to_hass] tracks
    nothing, although a power sensor is configured: the subscription sits
    inside the branch taken only when a last state exists. *)
Theorem first_start_tracks_nothing :
  forall power_sensor speed commands,
    async_added_to_hass None
      (new_world (__init__ power_sensor speed commands))
    = (Ok tt, new_world (__init__ power_sensor speed commands)) /\
    _power_sensor sample_fan = Some "binary_sensor.fan_power" /\
    tracked (async_added_to_hass None (new_world sample_fan)).2 = [] /\
    tracked (async_added_to_hass (Some ∅) (new_world sample_fan)).2
      = ["binary_sensor.fan_power"].
Proof. intros. repeat split. Qed.

(** C10: a notification with a new state and no old state raises
    [AttributeError] on [old_state.state], before any decision is taken. *)
Theorem sensor_first_notification_raises :
  forall eid new w,
    _async_power_sensor_changed (mk_Event eid None (Some new)) w
    = (Raise AttributeError, w).
Proof. intros. reflexivity. Qed.

(** * Further properties *)

(** ** Construction and restore *)

(** X1: The feature flags computed by [__init__] say what the device file
    holds: DIRECTION exactly when both direction tables are present,
    OSCILLATE exactly when there is an oscillate code; SET_SPEED, TURN_OFF
    and TURN_ON always, PRESET_MODE never.  The initial direction and
    oscillation flag are set exactly for the supported features. *)
Theorem init_supported_features power_sensor speed commands :
  let f := __init__ power_sensor speed commands in
  let has_direction :=
    contains commands DIRECTION_REVERSE && contains commands DIRECTION_FORWARD in
  let has_oscillate := contains commands "oscillate" in
  (Z.land (_attr_supported_features f) FanEntityFeature.DIRECTION <> 0%Z
     <-> has_direction = true) /\
  (Z.land (_attr_supported_features f) FanEntityFeature.OSCILLATE <> 0%Z
     <-> has_oscillate = true) /\
  Z.land (_attr_supported_features f) FanEntityFeature.SET_SPEED <> 0%Z /\
  Z.land (_attr_supported_features f) FanEntityFeature.TURN_OFF <> 0%Z /\
  Z.land (_attr_supported_features f) FanEntityFeature.TURN_ON <> 0%Z /\
  Z.land (_attr_supported_features f) FanEntityFeature.PRESET_MODE = 0%Z /\
  _direction f = (if has_direction then Some DIRECTION_REVERSE else None) /\
  _oscillating f = (if has_oscillate then Some false else None) /\
  _speed f = Some SPEED_OFF /\
  _last_on_speed f = None /\
  _on_by_remote f = false.
Proof.
  unfold __init__. simpl.
  destruct (contains commands DIRECTION_REVERSE),
           (contains commands DIRECTION_FORWARD),
           (contains commands "oscillate"); vm_compute;
    repeat split; intros; congruence.
Qed.

(** X2: What [async_added_to_hass] leaves alone: it never calls the controller,
    logs or pushes a state, it always returns normally, and it does not
    touch the oscillation flag, the remote mark or the configuration. *)
Theorem restore_is_silent last_state w :
  let r := async_added_to_hass last_state w in
  r.1 = Ok tt /\
  transport_calls r.2 = transport_calls w /\
  logged r.2 = logged w /\
  written_states r.2 = written_states w /\
  _oscillating (self r.2) = _oscillating (self w) /\
  _on_by_remote (self r.2) = _on_by_remote (self w) /\
  configuration (self r.2) = configuration (self w).
Proof.
  unfold async_added_to_hass. destruct last_state as [attrs|]; [|done].
  run.
  destruct (attrs !! "speed"); cbn;
    destruct (attrs !! "direction"); cbn;
    try destruct (negb _); cbn;
    destruct (attrs !! "last_on_speed"); cbn;
    destruct (truthy_str _); cbn; repeat split.
Qed.

Lemma init_direction_flag power_sensor speed commands :
  (Z.land (_attr_supported_features (__init__ power_sensor speed commands))
          FanEntityFeature.DIRECTION =? 0)%Z
  = negb (contains commands DIRECTION_REVERSE
          && contains commands DIRECTION_FORWARD).
Proof.
  unfold __init__. simpl.
  by destruct (contains commands DIRECTION_REVERSE),
              (contains commands DIRECTION_FORWARD),
              (contains commands "oscillate").
Qed.

Lemma init_direction power_sensor speed commands :
  _direction (__init__ power_sensor speed commands)
  = if contains commands DIRECTION_REVERSE
       && contains commands DIRECTION_FORWARD
    then Some DIRECTION_REVERSE else None.
Proof. reflexivity. Qed.

Lemma restore_direction attributes v w :
  attributes !! "direction" = Some v ->
  _direction (self (async_added_to_hass (Some attributes) w).2)
  = if (Z.land (_attr_supported_features (self w))
               FanEntityFeature.DIRECTION =? 0)%Z
    then _direction (self w) else v.
Proof.
  intros Hd. unfold async_added_to_hass. rewrite Hd. run.
  destruct (attributes !! "speed"); cbn;
    destruct (Z.land _ _ =? 0)%Z; cbn;
    destruct (attributes !! "last_on_speed"); cbn;
    destruct (truthy_str _); reflexivity.
Qed.

(** X3: A stored direction is restored only on a device with both direction
    tables; on any other device the entity keeps no direction, whatever the
    stored state says. *)
Theorem restore_direction_needs_support
    power_sensor speed commands attributes v :
  attributes !! "direction" = Some v ->
  _direction
    (self (async_added_to_hass (Some attributes)
             (new_world (__init__ power_sensor speed commands))).2)
  = if contains commands DIRECTION_REVERSE
       && contains commands DIRECTION_FORWARD
    then v else None.
Proof.
  intros Hd. rewrite (restore_direction attributes v) by done.
  change (self (new_world (__init__ power_sensor speed commands)))
    with (__init__ power_sensor speed commands).
  rewrite init_direction_flag, init_direction.
  by destruct (contains commands DIRECTION_REVERSE
               && contains commands DIRECTION_FORWARD).
Qed.

Lemma restore_direction_needs_support_witness :
  _direction
    (self (async_added_to_hass (Some {["direction" := Some "forward"]})
             (new_world sample_fan)).2) = Some "forward" /\
  _direction
    (self (async_added_to_hass (Some {["direction" := Some "forward"]})
             (new_world plain_fan)).2) = None.
Proof.
  split.
  - exact (restore_direction_needs_support
             (Some "binary_sensor.fan_power") sample_speeds sample_commands
             {["direction" := Some "forward"]} (Some "forward") eq_refl).
  - exact (restore_direction_needs_support
             None ["low"; "high"] plain_commands
             {["direction" := Some "forward"]} (Some "forward") eq_refl).
Defined.

(** ** The reported percentage *)

Lemma item_percentage_bounds (l : list string) (item : string) (p : Z) :
  ordered_list_item_to_percentage l item = Ok p -> (0 <= p <= 100)%Z.
Proof.
  unfold ordered_list_item_to_percentage.
  destruct (index item l) as [i|] eqn:Hi; [|done].
  intros [= <-]. apply index_length in Hi. split.
  - apply Z.div_pos; lia.
  - apply Z.div_le_upper_bound; lia.
Qed.

(** X4: Whenever the [percentage] property returns, its value lies between 0
    and 100. *)
Theorem percentage_bounds f p :
  percentage f = Ok p -> (0 <= p <= 100)%Z.
Proof.
  unfold percentage. destruct (py_eq _ _).
  - intros [= <-]. lia.
  - destruct (_speed f) as [item|]; [|done]. apply item_percentage_bounds.
Qed.

Lemma percentage_bounds_witness :
  percentage (set_speed (Some "medium") sample_fan) = Ok 66%Z /\
  (0 <= 66 <= 100)%Z.
Proof.
  split; [reflexivity|].
  exact (percentage_bounds (set_speed (Some "medium") sample_fan) 66
           eq_refl).
Defined.

(** X5: After the sensor reported ON while the speed was off the entity reads
    "on", but it has no percentage: reading [percentage] raises
    [ValueError]. *)
Theorem percentage_unknown_after_remote_on eid old w :
  _speed (self w) = Some SPEED_OFF ->
  State.state old <> STATE_ON ->
  let w1 := (_async_power_sensor_changed
               (mk_Event eid (Some old) (Some (State.mk STATE_ON))) w).2 in
  state (self w1) = STATE_ON /\
  percentage (self w1) = Raise ValueError.
Proof.
  intros Hs Ho w1. subst w1.
  by rewrite (sensor_on_while_off _ old (State.mk STATE_ON)).
Qed.

Lemma percentage_unknown_after_remote_on_witness :
  state (self sample_on_by_remote) = "on" /\
  percentage (self sample_on_by_remote) = Raise ValueError.
Proof.
  exact (percentage_unknown_after_remote_on "binary_sensor.fan_power"
           (State.mk "off") (new_world sample_fan) eq_refl
           ltac:(discriminate)).
Defined.

(** What [first_bucket] returns: the entry of the first bucket whose upper
    end reaches the percentage. *)
Lemma first_bucket_Some (l : list string) :
  forall (n p offset : Z) (s : string),
    first_bucket n p offset l = Some s ->
    exists j : nat,
      l !! j = Some s /\
      (p <= (offset + Z.of_nat j + 1) * 100 / n)%Z /\
      forall k : nat, (k < j)%nat ->
        ((offset + Z.of_nat k + 1) * 100 / n < p)%Z.
Proof.
  induction l as [|x l IH]; intros n p offset s; simpl; [done|].
  destruct (p <=? (offset + 1) * 100 / n)%Z eqn:E.
  - intros [= <-]. exists 0%nat. split; [done|]. split.
    + apply Z.leb_le in E.
      by replace (offset + Z.of_nat 0 + 1)%Z with (offset + 1)%Z by lia.
    + intros k Hk. lia.
  - intros H. apply IH in H as (j & Hj & Hle & Hlt).
    exists (S j). split; [done|]. split.
    + by replace (offset + Z.of_nat (S j) + 1)%Z
        with (offset + 1 + Z.of_nat j + 1)%Z by lia.
    + intros [|k] Hk.
      * apply Z.leb_gt in E.
        by replace (offset + Z.of_nat 0 + 1)%Z with (offset + 1)%Z by lia.
      * specialize (Hlt k ltac:(lia)).
        by replace (offset + Z.of_nat (S k) + 1)%Z
          with (offset + 1 + Z.of_nat k + 1)%Z by lia.
Qed.

Lemma first_bucket_None (l : list string) :
  forall (n p offset : Z),
    first_bucket n p offset l = None ->
    forall k : nat, (k < length l)%nat ->
      ((offset + Z.of_nat k + 1) * 100 / n < p)%Z.
Proof.
  induction l as [|x l IH]; intros n p offset; simpl; [intros; lia|].
  destruct (p <=? (offset + 1) * 100 / n)%Z eqn:E; [done|].
  intros H [|k] Hk.
  - apply Z.leb_gt in E.
    by replace (offset + Z.of_nat 0 + 1)%Z with (offset + 1)%Z by lia.
  - specialize (IH n p (offset + 1)%Z H k ltac:(lia)).
    by replace (offset + Z.of_nat (S k) + 1)%Z
      with (offset + 1 + Z.of_nat k + 1)%Z by lia.
Qed.

(** [percentage_to_ordered_list_item] only returns declared levels, and on
    a non-empty list it always returns one. *)
Lemma percentage_to_item_elem (l : list string) (p : Z) (L : string) :
  percentage_to_ordered_list_item l p = Ok L -> L ∈ l.
Proof.
  unfold percentage_to_ordered_list_item. destruct l as [|x l']; [done|].
  destruct (first_bucket _ _ _ _) as [s|] eqn:E.
  - intros [= <-]. apply first_bucket_Some in E as (j & Hj & _).
    by apply list_elem_of_lookup_2 in Hj.
  - destruct (last (x :: l')) as [s|] eqn:El; [|done].
    intros [= <-]. rewrite last_lookup in El.
    by apply list_elem_of_lookup_2 in El.
Qed.

Lemma percentage_to_item_total (l : list string) (p : Z) :
  l <> [] -> exists L, percentage_to_ordered_list_item l p = Ok L.
Proof.
  intros Hne. unfold percentage_to_ordered_list_item.
  destruct l as [|x l']; [done|].
  destruct (first_bucket _ _ _ _) as [s|]; [by eexists|].
  destruct (last (x :: l')) as [s|] eqn:El; [by eexists|].
  by apply last_None in El.
Qed.

Lemma index_NoDup (l : list string) (j : nat) (s : string) :
  NoDup l -> l !! j = Some s -> index s l = Some j.
Proof.
  intros Hnd. revert j. induction Hnd as [|x l Hx Hnd IH]; intros j; [done|].
  destruct j as [|j]; simpl.
  - intros [= ->]. by rewrite String.eqb_refl.
  - intros Hj. destruct (String.eqb x s) eqn:E.
    + apply String.eqb_eq in E. subst x.
      exfalso. apply Hx. by apply list_elem_of_lookup_2 in Hj.
    + by rewrite (IH j Hj).
Qed.

(** On a list without repetitions a percentage between 1 and 100 selects a
    level whose own percentage is at least the requested one, and that
    percentage selects the same level again. *)
Lemma bucket_fixpoint (l : list string) (p : Z) :
  NoDup l -> l <> [] -> (0 < p <= 100)%Z ->
  exists L q,
    percentage_to_ordered_list_item l p = Ok L /\
    ordered_list_item_to_percentage l L = Ok q /\
    (p <= q <= 100)%Z /\
    percentage_to_ordered_list_item l q = Ok L.
Proof.
  intros Hnd Hne Hp.
  assert (0 < length l)%nat as Hlen by (destruct l; [done|simpl; lia]).
  set (n := Z.of_nat (length l)).
  destruct (first_bucket n p 0 l) as [L|] eqn:E.
  - pose proof E as E'.
    apply first_bucket_Some in E' as (j & Hj & Hle & Hlt).
    pose proof (index_NoDup l j L Hnd Hj) as Hi.
    pose proof (index_length _ _ _ Hi) as Hjl.
    exists L, ((Z.of_nat j + 1) * 100 / n)%Z.
    rewrite Z.add_0_l in Hle.
    assert (percentage_to_ordered_list_item l p = Ok L) as H1.
    { unfold percentage_to_ordered_list_item. destruct l; [done|].
      fold n. by rewrite E. }
    assert (ordered_list_item_to_percentage l L
            = Ok ((Z.of_nat j + 1) * 100 / n)%Z) as H2.
    { unfold ordered_list_item_to_percentage. by rewrite Hi. }
    split; [done|]. split; [done|]. split.
    + split; [done|]. apply Z.div_le_upper_bound; subst n; lia.
    + unfold percentage_to_ordered_list_item. destruct l as [|x l']; [done|].
      fold n.
      rewrite (first_bucket_found (x :: l') n _ 0%Z j L Hi); [done| |].
      * intros k Hk. specialize (Hlt k Hk). lia.
      * rewrite Z.add_0_l. lia.
  - exfalso.
    pose proof (first_bucket_None l n p 0%Z E (length l - 1)%nat
                  ltac:(lia)) as H.
    replace (0 + Z.of_nat (length l - 1) + 1)%Z with n in H
      by (subst n; lia).
    rewrite (Z.mul_comm n 100), Z.div_mul in H by (subst n; lia). lia.
Qed.

(** X6: The percentage the entity reports after [async_set_percentage p], for
    [p] between 1 and 100 on a speed list without repetitions and without
    "off", is at least [p], at most 100, and stable: setting it again
    selects the same speed. *)
Theorem reported_percentage_stable controller w p :
  NoDup (_speed_list (self w)) ->
  SPEED_OFF ∉ _speed_list (self w) ->
  _speed_list (self w) <> [] ->
  (0 < p <= 100)%Z ->
  let w1 := (async_set_percentage controller p w).2 in
  exists q,
    percentage (self w1) = Ok q /\
    (p <= q <= 100)%Z /\
    _speed (self (async_set_percentage controller q w1).2)
      = _speed (self w1).
Proof.
  intros Hnd Hoff Hne Hp w1.
  destruct (bucket_fixpoint _ p Hnd Hne Hp) as (L & q & H1 & H2 & Hq & H3).
  assert (L <> SPEED_OFF) as HL.
  { intros ->. apply Hoff. by apply percentage_to_item_elem in H1. }
  assert (self w1 = set_on_by_remote false
            (set_last_on_speed (Some L) (set_speed (Some L) (self w))))
    as Hself.
  { subst w1.
    rewrite (async_set_percentage_level controller w p L) by (done || lia).
    by rewrite dispatch_and_write_self. }
  exists q. split; [|split; [done|]].
  - rewrite Hself. unfold percentage. simpl.
    assert (py_eq (Some L) (Some SPEED_OFF) = false) as ->
      by (apply py_eq_false; congruence).
    done.
  - destruct (async_set_percentage_resolved controller w1 q L) as [Hs _].
    + lia.
    + by rewrite Hself.
    + rewrite Hs. by rewrite Hself.
Qed.

Lemma reported_percentage_stable_witness :
  exists q,
    percentage (self (async_set_percentage reliable 50
                        (new_world sample_fan)).2) = Ok q /\
    (50 <= q <= 100)%Z /\
    _speed (self (async_set_percentage reliable q
                    (async_set_percentage reliable 50
                       (new_world sample_fan)).2).2)
      = _speed (self (async_set_percentage reliable 50
                        (new_world sample_fan)).2).
Proof.
  apply (reported_percentage_stable reliable (new_world sample_fan) 50).
  - apply (bool_decide_unpack _). reflexivity.
  - apply (bool_decide_unpack _). reflexivity.
  - discriminate.
  - lia.
Defined.

(** ** Edge cases of the user operations *)

Lemma index_not_elem (item : string) (l : list string) :
  item ∉ l -> index item l = None.
Proof.
  intros H. destruct (index item l) as [i|] eqn:E; [|done].
  exfalso. apply H. apply index_lookup in E.
  by apply list_elem_of_lookup_2 in E.
Qed.

Section EdgeCases.

Variable controller : list json -> json -> option exn.

(** X7: With an empty speed list every non-zero percentage raises [ValueError]
    and a bare turn-on without a last on-speed raises [IndexError]; in both
    cases nothing is changed, sent or pushed. *)
Theorem empty_speed_list_errors w :
  _speed_list (self w) = [] ->
  (forall p, p <> 0%Z ->
     async_set_percentage controller p w = (Raise ValueError, w)) /\
  (truthy_str (_last_on_speed (self w)) = false ->
     async_turn_on controller None w = (Raise IndexError, w)).
Proof.
  intros Hl. split.
  - intros p Hp. apply async_set_percentage_invalid; [done|].
    by rewrite Hl.
  - intros Ht. unfold async_turn_on. run. by rewrite Ht, Hl.
Qed.

(** X8: A bare turn-on whose last on-speed is not a declared level (a stored
    state from an older device file, say) raises [ValueError] and changes,
    sends and pushes nothing. *)
Theorem turn_on_stale_last_speed w L :
  _last_on_speed (self w) = Some L ->
  L <> "" ->
  L ∉ _speed_list (self w) ->
  async_turn_on controller None w = (Raise ValueError, w).
Proof.
  intros HL Hne Hnot. unfold async_turn_on. run. rewrite HL. simpl.
  apply String.eqb_neq in Hne. rewrite Hne. simpl.
  unfold ordered_list_item_to_percentage.
  by rewrite (index_not_elem L _ Hnot).
Qed.


End EdgeCases.

Lemma empty_speed_list_errors_witness :
  let w := new_world (__init__ None [] plain_commands) in
  async_set_percentage reliable 50 w = (Raise ValueError, w) /\
  async_turn_on reliable None w = (Raise IndexError, w).
Proof.
  split.
  - apply (proj1 (empty_speed_list_errors reliable
                    (new_world (__init__ None [] plain_commands)) eq_refl)).
    lia.
  - apply (proj2 (empty_speed_list_errors reliable
                    (new_world (__init__ None [] plain_commands)) eq_refl)).
    reflexivity.
Defined.

Lemma turn_on_stale_last_speed_witness :
  let w := new_world (set_last_on_speed (Some "turbo") sample_fan) in
  async_turn_on reliable None w = (Raise ValueError, w).
Proof.
  apply (turn_on_stale_last_speed reliable
           (new_world (set_last_on_speed (Some "turbo") sample_fan))
           "turbo"); [reflexivity | discriminate |].
  apply (bool_decide_unpack _). reflexivity.
Defined.


(** ** Devices without direction tables *)

Lemma restore_direction_unsupported last_state w :
  (Z.land (_attr_supported_features (self w))
          FanEntityFeature.DIRECTION =? 0)%Z = true ->
  _direction (self (async_added_to_hass last_state w).2)
  = _direction (self w).
Proof.
  intros Hf. destruct last_state as [attrs|]; [|done].
  destruct (attrs !! "direction") as [v|] eqn:Hd.
  - by rewrite (restore_direction attrs v), Hf.
  - unfold async_added_to_hass. rewrite Hd. run.
    destruct (attrs !! "speed"); cbn;
      destruct (attrs !! "last_on_speed"); cbn;
      destruct (truthy_str _); reflexivity.
Qed.

Lemma restore_keeps_config last_state w :
  _speed_list (self (async_added_to_hass last_state w).2)
    = _speed_list (self w) /\
  _commands (self (async_added_to_hass last_state w).2)
    = _commands (self w) /\
  _oscillating (self (async_added_to_hass last_state w).2)
    = _oscillating (self w).
Proof.
  unfold async_added_to_hass. destruct last_state as [attrs|]; [|done].
  run.
  destruct (attrs !! "speed"); cbn;
    destruct (attrs !! "direction"); cbn;
    try destruct (negb _); cbn;
    destruct (attrs !! "last_on_speed"); cbn;
    destruct (truthy_str _); cbn; repeat split.
Qed.

(** X10: On a device whose file lacks one of the direction tables, the entity
    as constructed and restored from any stored state sends the entry of
    the "default" table for the level a percentage selects. *)
Theorem default_table_without_direction
    controller power_sensor speed commands last_state p L t c :
  contains commands DIRECTION_REVERSE && contains commands DIRECTION_FORWARD
    = false ->
  p <> 0%Z ->
  percentage_to_ordered_list_item speed p = Ok L ->
  L <> SPEED_OFF ->
  commands !! "default" = Some (JObj t) ->
  t !! L = Some c ->
  sends (async_set_percentage controller p)
        (async_added_to_hass last_state
           (new_world (__init__ power_sensor speed commands))).2
        c.
Proof.
  intros Hdir Hp HL Hoff Ht Hc.
  set (w0 := new_world (__init__ power_sensor speed commands)).
  set (w := (async_added_to_hass last_state w0).2).
  destruct (restore_keeps_config last_state w0) as (Hl & Hcmd & Hosc).
  assert (_direction (self w) = None) as Hd.
  { subst w. rewrite restore_direction_unsupported.
    - subst w0. simpl self. by rewrite init_direction, Hdir.
    - subst w0. simpl self. by rewrite init_direction_flag, Hdir. }
  fold w in Hl, Hcmd, Hosc. unfold sends.
  rewrite (async_set_percentage_level controller w p L);
    [|done|by rewrite Hl|done].
  apply (dispatch_and_write_sends controller
           (with_self (set_last_on_speed (Some L))
              (with_self (set_speed (Some L)) w)) c).
  apply (selected_table _ L t c); simpl; try done.
  - rewrite Hosc. subst w0. simpl.
    destruct (contains commands "oscillate"); discriminate.
  - by rewrite Hd, Hcmd.
Qed.

Lemma default_table_without_direction_witness :
  sends (async_set_percentage reliable 100)
        (async_added_to_hass (Some {["direction" := Some "forward"]})
           (new_world plain_fan)).2
        (JStr "D2").
Proof.
  apply (default_table_without_direction reliable None ["low"; "high"]
           plain_commands (Some {["direction" := Some "forward"]})
           100 "high"
           (<["low" := JStr "D1"]> (<["high" := JStr "D2"]> ∅)));
    [reflexivity | lia | reflexivity | discriminate | reflexivity
    | reflexivity].
Defined.

(** ** The shape of every operation *)

Lemma moves_within_refl f : moves_within f f.
Proof. repeat split; by left. Qed.

Lemma async_set_percentage_level_off controller w p :
  p <> 0%Z ->
  percentage_to_ordered_list_item (_speed_list (self w)) p = Ok SPEED_OFF ->
  async_set_percentage controller p w =
  dispatch_and_write controller (with_self (set_speed (Some SPEED_OFF)) w).
Proof.
  intros Hp HL. unfold async_set_percentage.
  apply Z.eqb_neq in Hp. rewrite Hp. run. rewrite HL. cbn.
  rewrite py_eq_refl. reflexivity.
Qed.

(** An operation either raises before it changed anything, or completes
    without dispatching (pushing the state or not), or updates some fields
    and then runs the common tail: dispatch, push. *)
Lemma async_set_percentage_shape w p :
  (exists e, forall controller,
      async_set_percentage controller p w = (Raise e, w)) \/
  (exists g, moves_within (self w) (g (self w)) /\
     forall controller,
       async_set_percentage controller p w
       = dispatch_and_write controller (with_self g w)).
Proof.
  destruct (decide (p = 0%Z)) as [->|Hp].
  - right. exists (set_speed (Some SPEED_OFF)). split.
    + split; [done|]. split; [right; right; by left | by left].
    + intros. apply async_set_percentage_zero.
  - destruct (percentage_to_ordered_list_item (_speed_list (self w)) p)
      as [L|e] eqn:E.
    + right. destruct (decide (L = SPEED_OFF)) as [->|Hoff].
      * exists (set_speed (Some SPEED_OFF)). split.
        -- split; [done|]. split; [right; right; by left | by left].
        -- intros. by apply async_set_percentage_level_off.
      * exists (fun f => set_last_on_speed (Some L) (set_speed (Some L) f)).
        pose proof (percentage_to_item_elem _ _ _ E) as Hin. split.
        -- split; [done|]. split.
           ++ right; right; right. by exists L.
           ++ right. by exists L.
        -- intros. by apply async_set_percentage_level.
    + left. exists e. intros. by apply async_set_percentage_invalid.
Qed.

Lemma async_turn_on_shape w p :
  (exists e, forall controller,
      async_turn_on controller p w = (Raise e, w)) \/
  (exists g, moves_within (self w) (g (self w)) /\
     forall controller,
       async_turn_on controller p w
       = dispatch_and_write controller (with_self g w)).
Proof.
  destruct p as [p|]; [apply async_set_percentage_shape|].
  destruct (if truthy_str (_last_on_speed (self w))
            then Ok (default "" (_last_on_speed (self w)))
            else list_getitem0 (_speed_list (self w))) as [item|e] eqn:E1.
  - destruct (ordered_list_item_to_percentage (_speed_list (self w)) item)
      as [q|e] eqn:E2.
    + destruct (async_set_percentage_shape w q) as [[e H]|(g & Hg & H)].
      * left. exists e. intros.
        by rewrite (async_turn_on_resolved controller w item q).
      * right. exists g. split; [done|]. intros.
        by rewrite (async_turn_on_resolved controller w item q).
    + left. exists e. intros. unfold async_turn_on. run.
      by rewrite E1, E2.
  - left. exists e. intros. unfold async_turn_on. run. by rewrite E1.
Qed.

Lemma user_operation_shape op w :
  user_operation op ->
  (exists e, forall controller, perform controller op w = (Raise e, w)) \/
  (exists g, moves_within (self w) (g (self w)) /\
     forall controller,
       perform controller op w
       = (Ok tt, add_written (state (g (self w))) (with_self g w))) \/
  (exists g, moves_within (self w) (g (self w)) /\
     forall controller,
       perform controller op w
       = dispatch_and_write controller (with_self g w)).
Proof.
  intros Hu. destruct op as [p|b|d|p| |ev]; simpl in *; [| | | | |done].
  - destruct (async_set_percentage_shape w p) as [H|H]; [by left|].
    right; by right.
  - right; right. exists (set_oscillating (Some b)).
    split; [repeat split; by left|]. intros. apply async_oscillate_run.
  - destruct (decide (_speed (self w) = Some SPEED_OFF)) as [E|E].
    + right; left. exists (set_direction (Some d)).
      split; [repeat split; by left|]. intros.
      by apply async_set_direction_off.
    + right; right. exists (set_direction (Some d)).
      split; [repeat split; by left|]. intros.
      by apply async_set_direction_running.
  - destruct (async_turn_on_shape w p) as [H|H]; [by left|].
    right; by right.
  - right; right. exists (set_speed (Some SPEED_OFF)). split.
    + split; [done|]. split; [right; right; by left | by left].
    + intros. apply async_set_percentage_zero.
Qed.

Lemma sensor_shape ev w :
  (exists r, _async_power_sensor_changed ev w = (r, w)) \/
  (exists g, moves_within (self w) (g (self w)) /\
     _async_power_sensor_changed ev w
     = (Ok tt, add_written (state (g (self w))) (with_self g w))).
Proof.
  destruct (new_state ev) as [new|] eqn:Hn;
    [|left; eexists; by apply sensor_unavailable].
  destruct (old_state ev) as [old|] eqn:Ho;
    [|left; eexists; by apply (sensor_old_absent ev new)].
  destruct (decide (State.state new = State.state old)) as [E|E];
    [left; eexists; by apply (sensor_duplicate ev old new)|].
  destruct (decide (State.state new = STATE_ON)) as [Eon|Eon].
  - destruct (decide (_speed (self w) = Some SPEED_OFF)) as [Es|Es].
    + right. exists (fun f => set_speed None (set_on_by_remote true f)).
      split.
      * split; [done|]. split; [right; by left | by left].
      * rewrite (sensor_on_while_off ev old new) by congruence. done.
    + left. eexists.
      apply (sensor_on_while_running ev old new); congruence.
  - destruct (decide (State.state new = STATE_OFF)) as [Eoff|Eoff].
    + right.
      exists (fun f => set_speed (Some SPEED_OFF) (set_on_by_remote false f)).
      split.
      * split; [done|]. split; [right; right; by left | by left].
      * rewrite (sensor_off ev old new) by congruence. done.
    + left. eexists. by apply (sensor_other ev old new).
Qed.

Lemma dispatch_and_write_facts controller w :
  let r := dispatch_and_write controller w in
  self r.2 = set_on_by_remote false (self w) /\
  tracked r.2 = tracked w /\
  ((exists e, r.1 = Raise e /\
      transport_calls r.2 = transport_calls w /\
      logged r.2 = logged w /\
      written_states r.2 = written_states w) \/
   (exists c, r.1 = Ok tt /\
      transport_calls r.2 = transport_calls w ++ [c] /\
      written_states r.2 = written_states w ++ [state (self r.2)])).
Proof.
  simpl. rewrite dispatch_and_write_run. simpl.
  destruct (selected_command (self w)) as [c|e].
  - destruct (controller (transport_calls w) c); simpl;
      (split; [done|]; split; [done|]; right; by exists c).
  - split; [done|]. split; [done|]. left. by exists e.
Qed.

Lemma operation_cases op :
  user_operation op \/ exists ev, op = SensorChanged ev.
Proof. destruct op; simpl; eauto. Qed.

Lemma after_moves_within controller op w :
  moves_within (self w) (self (after controller op w)).
Proof.
  unfold after. destruct (operation_cases op) as [Hu|[ev ->]].
  - destruct (user_operation_shape op w Hu)
      as [[e H]|[(g & Hg & H)|(g & Hg & H)]]; rewrite H.
    + apply moves_within_refl.
    + exact Hg.
    + destruct (dispatch_and_write_facts controller (with_self g w))
        as (-> & _). exact Hg.
  - simpl. destruct (sensor_shape ev w) as [[r H]|(g & Hg & H)]; rewrite H.
    + apply moves_within_refl.
    + exact Hg.
Qed.

Lemma moves_within_speed_list f f' :
  moves_within f f' -> _speed_list f' = _speed_list f.
Proof. intros [H _]. unfold configuration in H. congruence. Qed.

Lemma moves_within_domain f f' :
  moves_within f f' ->
  speed_in_domain f /\ last_on_speed_in_domain f ->
  speed_in_domain f' /\ last_on_speed_in_domain f'.
Proof.
  intros Hm [Hs Hl]. pose proof (moves_within_speed_list _ _ Hm) as Hlist.
  destruct Hm as (_ & Hspeed & Hlast).
  unfold speed_in_domain, last_on_speed_in_domain. rewrite !Hlist. split.
  - destruct Hspeed as [->|[->|[->|(L & HL & ->)]]];
      [done | by left | right; by left | right; right; by exists L].
  - destruct Hlast as [->|(L & HL & Hoff & ->)]; [done|].
    right. by exists L.
Qed.

(** ** Properties of every operation *)

Section EveryOperation.

Variable controller : list json -> json -> option exn.

(** X11: An operation calls the controller at most once, and what was sent
    before stays: a run of operations only appends to the sent payloads, at
    most one per operation. *)
Theorem at_most_one_send_each ops w :
  transport_calls w `prefix_of` transport_calls (after_all controller ops w) /\
  (length (transport_calls (after_all controller ops w))
   <= length (transport_calls w) + length ops)%nat.
Proof.
  revert w. induction ops as [|op ops IH]; intros w; simpl.
  - split; [done|lia].
  - destruct (IH (after controller op w)) as [Hp Hl].
    assert (transport_calls (after controller op w) = transport_calls w \/
            exists c, transport_calls (after controller op w)
                      = transport_calls w ++ [c]) as Hone.
    { unfold after. destruct (operation_cases op) as [Hu|[ev ->]].
      - destruct (user_operation_shape op w Hu)
          as [[e H]|[(g & Hg & H)|(g & Hg & H)]]; rewrite H; try by left.
        destruct (dispatch_and_write_facts controller (with_self g w))
          as (_ & _ & [(e & _ & Ht & _)|(c & _ & Ht & _)]).
        + by left.
        + right. by exists c.
      - simpl. destruct (sensor_shape ev w) as [[r H]|(g & Hg & H)];
          rewrite H; by left. }
    destruct Hone as [E|[c E]]; rewrite E in Hp, Hl.
    + split; [done|lia].
    + split.
      * etrans; [|exact Hp]. by apply prefix_app_r.
      * rewrite length_app in Hl. simpl in Hl. lia.
Qed.


(** X13: No run of operations changes the configuration of the entity: the
    sensor entity, the speed list, the command table and the feature
    flags. *)
Theorem configuration_never_changes ops w :
  configuration (self (after_all controller ops w)) = configuration (self w).
Proof.
  revert w. induction ops as [|op ops IH]; intros w; [done|].
  simpl. rewrite IH.
  by destruct (after_moves_within controller op w) as [H _].
Qed.

(** X14: If the speed is off, unknown or a declared level, and the last
    on-speed is absent or a declared level other than off, the same holds
    after any run of operations. *)
Theorem speed_stays_declared ops w :
  speed_in_domain (self w) ->
  last_on_speed_in_domain (self w) ->
  speed_in_domain (self (after_all controller ops w)) /\
  last_on_speed_in_domain (self (after_all controller ops w)).
Proof.
  revert w. induction ops as [|op ops IH]; intros w Hs Hl; [done|].
  simpl.
  destruct (moves_within_domain _ _ (after_moves_within controller op w)
              (conj Hs Hl)) as [Hs' Hl'].
  by apply IH.
Qed.

(** X15: [async_turn_off] always leaves the entity reading off, with percentage
    0 and without the remote mark, whether or not the off-command was found
    and sent. *)
Theorem turn_off_reads_off w :
  let f := self (async_turn_off controller w).2 in
  state f = SPEED_OFF /\
  percentage f = Ok 0%Z /\
  _speed f = Some SPEED_OFF /\
  _on_by_remote f = false.
Proof.
  simpl. unfold async_turn_off.
  rewrite async_set_percentage_zero, dispatch_and_write_self.
  repeat split.
Qed.

End EveryOperation.

(** X16: Whether the controller fails or not shows only in the log: the result
    of an operation, the entity, the payloads handed to the controller, the
    pushed states and the subscriptions are the same for any two
    controllers. *)
Theorem controller_failures_only_logged controller1 controller2 op w :
  let r1 := perform controller1 op w in
  let r2 := perform controller2 op w in
  r1.1 = r2.1 /\
  self r1.2 = self r2.2 /\
  transport_calls r1.2 = transport_calls r2.2 /\
  written_states r1.2 = written_states r2.2 /\
  tracked r1.2 = tracked r2.2.
Proof.
  simpl. destruct (operation_cases op) as [Hu|[ev ->]].
  - destruct (user_operation_shape op w Hu)
      as [[e H]|[(g & Hg & H)|(g & Hg & H)]];
      rewrite (H controller1), (H controller2); try done.
    rewrite !dispatch_and_write_run. simpl.
    destruct (selected_command (g (self w))) as [c|e]; [|done].
    by destruct (controller1 (transport_calls w) c),
                (controller2 (transport_calls w) c).
  - done.
Qed.


Lemma speed_stays_declared_witness :
  let on_event := mk_Event "binary_sensor.fan_power"
                    (Some (State.mk "off")) (Some (State.mk "on")) in
  let w := after_all broken
             [TurnOn None; SensorChanged on_event; SetDirection "forward";
              SetPercentage 250; TurnOff; SensorChanged on_event]
             (new_world sample_fan) in
  speed_in_domain (self w) /\ last_on_speed_in_domain (self w).
Proof.
  apply (speed_stays_declared broken).
  - right; left. reflexivity.
  - left. reflexivity.
Defined.

(** ** The sensor handler, for every notification *)

(** The three things the handler can do. *)
Lemma sensor_outcomes ev w :
  (exists r, _async_power_sensor_changed ev w = (r, w)) \/
  _async_power_sensor_changed ev w
    = (Ok tt, add_written STATE_ON
                (with_self (set_speed None)
                   (with_self (set_on_by_remote true) w))) \/
  _async_power_sensor_changed ev w
    = (Ok tt, add_written SPEED_OFF
                (with_self (set_speed (Some SPEED_OFF))
                   (with_self (set_on_by_remote false) w))).
Proof.
  destruct (new_state ev) as [new|] eqn:Hn;
    [|left; eexists; by apply sensor_unavailable].
  destruct (old_state ev) as [old|] eqn:Ho;
    [|left; eexists; by apply (sensor_old_absent ev new)].
  destruct (decide (State.state new = State.state old)) as [E|E];
    [left; eexists; by apply (sensor_duplicate ev old new)|].
  destruct (decide (State.state new = STATE_ON)) as [Eon|Eon].
  - destruct (decide (_speed (self w) = Some SPEED_OFF)) as [Es|Es].
    + right; left. apply (sensor_on_while_off ev old new); congruence.
    + left. eexists.
      apply (sensor_on_while_running ev old new); congruence.
  - destruct (decide (State.state new = STATE_OFF)) as [Eoff|Eoff].
    + right; right. apply (sensor_off ev old new); congruence.
    + left. eexists. by apply (sensor_other ev old new).
Qed.

(** X17: Whatever the notification, the handler never calls the controller,
    never logs, never subscribes, and changes neither the direction, the
    oscillation flag, the last on-speed nor the configuration. *)
Theorem sensor_handler_never_transmits ev w :
  let w' := (_async_power_sensor_changed ev w).2 in
  transport_calls w' = transport_calls w /\
  logged w' = logged w /\
  tracked w' = tracked w /\
  _direction (self w') = _direction (self w) /\
  _oscillating (self w') = _oscillating (self w) /\
  _last_on_speed (self w') = _last_on_speed (self w) /\
  configuration (self w') = configuration (self w).
Proof.
  simpl. destruct (sensor_outcomes ev w) as [[r H]|[H|H]]; rewrite H;
    repeat split.
Qed.

(** X18: Delivering the same notification twice leaves the entity as delivering
    it once. *)
Theorem sensor_handler_idempotent ev w :
  self (_async_power_sensor_changed ev
          (_async_power_sensor_changed ev w).2).2
  = self (_async_power_sensor_changed ev w).2.
Proof.
  destruct (new_state ev) as [new|] eqn:Hn;
    [|by rewrite !sensor_unavailable].
  destruct (old_state ev) as [old|] eqn:Ho;
    [|by rewrite !(sensor_old_absent ev new)].
  destruct (decide (State.state new = State.state old)) as [E|E];
    [by rewrite !(sensor_duplicate ev old new)|].
  destruct (decide (State.state new = STATE_ON)) as [Eon|Eon].
  - destruct (decide (_speed (self w) = Some SPEED_OFF)) as [Es|Es].
    + rewrite (sensor_on_while_off ev old new w) by congruence.
      by rewrite (sensor_on_while_running ev old new)
        by (simpl; congruence).
    + rewrite (sensor_on_while_running ev old new w) by congruence.
      simpl. by rewrite (sensor_on_while_running ev old new w) by congruence.
  - destruct (decide (State.state new = STATE_OFF)) as [Eoff|Eoff].
    + by rewrite !(sensor_off ev old new) by congruence.
    + by rewrite !(sensor_other ev old new).
Qed.

(** ** Resuming the last speed *)

Section Resume.

Variable controller : list json -> json -> option exn.

Lemma resume_from_last_on_speed w L :
  _last_on_speed (self w) = Some L ->
  L <> "" ->
  L ∈ _speed_list (self w) ->
  (length (_speed_list (self w)) <= 100)%nat ->
  _speed (self (async_turn_on controller None w).2) = Some L.
Proof.
  intros HL Hne Hin Hlen.
  destruct (level_percentage_level _ L Hin Hlen) as (q & Hq & Hq0 & Hb).
  rewrite (async_turn_on_resolved controller w L q); [| |done].
  - by apply async_set_percentage_speed.
  - rewrite HL. simpl. apply String.eqb_neq in Hne. by rewrite Hne.
Qed.

(** X19: The speed survives a power-off: after [async_set_percentage] selected
    the level [L], switching off, by [async_turn_off] or by the sensor
    reporting OFF, and then a bare [async_turn_on] brings the speed back to
    [L] (speed lists of at most 100 levels; [L] is neither "off" nor the
    empty string). *)
Theorem turn_on_resumes_after_power_off w p L eid old :
  p <> 0%Z ->
  percentage_to_ordered_list_item (_speed_list (self w)) p = Ok L ->
  L <> SPEED_OFF ->
  L <> "" ->
  (length (_speed_list (self w)) <= 100)%nat ->
  State.state old <> STATE_OFF ->
  let w1 := (async_set_percentage controller p w).2 in
  let by_user := (async_turn_off controller w1).2 in
  let by_remote :=
    (_async_power_sensor_changed
       (mk_Event eid (Some old) (Some (State.mk STATE_OFF))) w1).2 in
  _speed (self by_user) = Some SPEED_OFF /\
  _speed (self (async_turn_on controller None by_user).2) = Some L /\
  _speed (self by_remote) = Some SPEED_OFF /\
  _speed (self (async_turn_on controller None by_remote).2) = Some L.
Proof.
  intros Hp HL Hoff Hne Hlen Hold w1 by_user by_remote.
  pose proof (percentage_to_item_elem _ _ _ HL) as Hin.
  assert (self w1 = set_on_by_remote false
            (set_last_on_speed (Some L) (set_speed (Some L) (self w))))
    as Hw1.
  { subst w1. rewrite (async_set_percentage_level controller w p L) by done.
    by rewrite dispatch_and_write_self. }
  assert (self by_user = set_on_by_remote false
            (set_speed (Some SPEED_OFF) (self w1))) as Hu.
  { subst by_user. unfold async_turn_off.
    by rewrite async_set_percentage_zero, dispatch_and_write_self. }
  assert (self by_remote = set_speed (Some SPEED_OFF)
            (set_on_by_remote false (self w1))) as Hr.
  { subst by_remote.
    by rewrite (sensor_off _ old (State.mk STATE_OFF)). }
  split; [by rewrite Hu|]. split; [|split; [by rewrite Hr|]].
  - apply resume_from_last_on_speed; rewrite ?Hu, ?Hw1; simpl; done.
  - apply resume_from_last_on_speed; rewrite ?Hr, ?Hw1; simpl; done.
Qed.

End Resume.

Lemma turn_on_resumes_after_power_off_witness :
  let w1 := (async_set_percentage reliable 50 (new_world sample_fan)).2 in
  let by_remote :=
    (_async_power_sensor_changed
       (mk_Event "binary_sensor.fan_power"
          (Some (State.mk "on")) (Some (State.mk STATE_OFF))) w1).2 in
  _speed (self (async_turn_on reliable None
                  (async_turn_off reliable w1).2).2) = Some "medium" /\
  _speed (self (async_turn_on reliable None by_remote).2) = Some "medium".
Proof.
  destruct (turn_on_resumes_after_power_off reliable (new_world sample_fan)
              50 "medium" "binary_sensor.fan_power" (State.mk "on"))
    as (_ & H1 & _ & H2);
    [lia | reflexivity | discriminate | discriminate | simpl; lia
    | discriminate |].
  split; [exact H1 | exact H2].
Defined.

(** ** Speed changes *)

Section SpeedChanges.

Variable controller : list json -> json -> option exn.

(** X20: On a non-empty speed list every non-zero percentage selects a declared
    level: [async_set_percentage] records it as speed and, unless it is
    "off", as last on-speed, clears the remote mark, and, when not
    oscillating, sends the entry of the table for that level if there is
    one. *)
Theorem set_percentage_selects_declared_level w p :
  _speed_list (self w) <> [] ->
  p <> 0%Z ->
  let w1 := (async_set_percentage controller p w).2 in
  exists L,
    L ∈ _speed_list (self w) /\
    _speed (self w1) = Some L /\
    _on_by_remote (self w1) = false /\
    (L <> SPEED_OFF ->
       _last_on_speed (self w1) = Some L /\
       state (self w1) = STATE_ON /\
       forall t c,
         _oscillating (self w) <> Some true ->
         _commands (self w) !! py_or (_direction (self w)) "default"
           = Some (JObj t) ->
         t !! L = Some c ->
         sends (async_set_percentage controller p) w c).
Proof.
  intros Hne Hp w1.
  destruct (percentage_to_item_total _ p Hne) as [L HL].
  exists L. split; [by apply percentage_to_item_elem in HL|].
  destruct (async_set_percentage_resolved controller w p L Hp HL)
    as [Hs Hr].
  split; [done|]. split; [done|]. intros Hoff. subst w1.
  unfold sends.
  rewrite (async_set_percentage_level controller w p L) by done.
  rewrite dispatch_and_write_self. split; [done|]. split.
  - unfold state. simpl.
    assert (py_eq (Some L) (Some SPEED_OFF) = false) as ->
      by (apply py_eq_false; congruence).
    done.
  - intros t c Ho Ht Hc.
    exact (dispatch_and_write_sends controller
             (with_self (set_last_on_speed (Some L))
                (with_self (set_speed (Some L)) w)) c
             (selected_table
                (self (with_self (set_last_on_speed (Some L))
                         (with_self (set_speed (Some L)) w)))
                L t c eq_refl Hoff Ho Ht Hc)).
Qed.

(** X21: While the oscillation flag is set, a change of speed or of direction
    is recorded but not transmitted as such: the controller receives the
    oscillate code again. *)
Theorem changes_while_oscillating_send_oscillate w c :
  _oscillating (self w) = Some true ->
  _commands (self w) !! "oscillate" = Some c ->
  (forall p L,
      p <> 0%Z ->
      percentage_to_ordered_list_item (_speed_list (self w)) p = Ok L ->
      L <> SPEED_OFF ->
      _speed (self (async_set_percentage controller p w).2) = Some L /\
      sends (async_set_percentage controller p) w c) /\
  (forall d,
      _speed (self w) <> Some SPEED_OFF ->
      _direction (self (async_set_direction controller d w).2) = Some d /\
      sends (async_set_direction controller d) w c).
Proof.
  intros Ho Hc. split.
  - intros p L Hp HL Hoff.
    split; [by apply async_set_percentage_speed|]. unfold sends.
    rewrite (async_set_percentage_level controller w p L) by done.
    apply (dispatch_and_write_sends controller
             (with_self (set_last_on_speed (Some L))
                (with_self (set_speed (Some L)) w)) c).
    apply selected_oscillate; simpl; [congruence|done|done].
  - intros d Hs. split; [apply async_set_direction_records|].
    unfold sends. rewrite async_set_direction_running by done.
    apply (dispatch_and_write_sends controller
             (with_self (set_direction (Some d)) w) c).
    by apply selected_oscillate.
Qed.

End SpeedChanges.

Lemma set_percentage_selects_declared_level_witness :
  exists L,
    L ∈ sample_speeds /\
    _speed (self (async_set_percentage broken 250
                    (new_world sample_fan)).2) = Some L /\
    _on_by_remote (self (async_set_percentage broken 250
                           (new_world sample_fan)).2) = false.
Proof.
  destruct (set_percentage_selects_declared_level broken
              (new_world sample_fan) 250) as (L & H1 & H2 & H3 & _);
    [discriminate | lia |].
  exists L. split; [exact H1|]. split; [exact H2 | exact H3].
Defined.

Lemma changes_while_oscillating_send_oscillate_witness :
  let w := sample_at (Some "low") (Some true) (Some "forward") in
  _speed (self (async_set_percentage reliable 100 w).2) = Some "high" /\
  sends (async_set_percentage reliable 100) w (JStr "OSC") /\
  sends (async_set_direction reliable "reverse") w (JStr "OSC").
Proof.
  pose proof (changes_while_oscillating_send_oscillate reliable
                (sample_at (Some "low") (Some true) (Some "forward"))
                (JStr "OSC") eq_refl eq_refl) as [H1 H2].
  destruct (H1 100%Z "high") as [Ha Hb];
    [lia | reflexivity | discriminate |].
  destruct (H2 "reverse") as [_ Hc]; [discriminate|].
  split; [exact Ha|]. split; [exact Hb | exact Hc].
Defined.
